(** * Betaflight: AK8963 compass driver and 5.8GHz VTX table

    A shallow embedding of
      - [src/main/drivers/compass/compass_ak8963.c] (the magnetometer driver,
        both the SPI pass-through build and the direct I2C build), and
      - the VTX band/channel table ([vtx58_Freq2Bandchan],
        [vtx58_Bandchan2Freq]),
    followed by the properties of the specification stated over it. *)

From Stdlib Require Import String.
From Stdlib Require Import ZArith List Bool Lia QArith Qpower.
Import ListNotations.
Local Open Scope Z_scope.

(* ================================================================== *)
(** ** Fixed-width integers

    C integers are [Z] with the wrap-around written out. *)

Module CInt.

(** Conversion to an unsigned [w]-bit integer. *)
Definition uint (w : Z) (z : Z) : Z := z mod 2 ^ w.

(** Conversion to a signed [w]-bit integer (two's complement). *)
Definition sint (w : Z) (z : Z) : Z :=
  let r := z mod 2 ^ w in
  if r <? 2 ^ (w - 1) then r else r - 2 ^ w.

Definition uint8_t := uint 8.
Definition uint16_t := uint 16.
Definition uint32_t := uint 32.
Definition int8_t := sint 8.
Definition int16_t := sint 16.
Definition int32_t := sint 32.

(** [x & m] used as a C truth value. *)
Definition test (x m : Z) : bool := negb (Z.land x m =? 0).

Definition is_byte (b : Z) : Prop := 0 <= b < 256.

End CInt.
Import CInt.

(* ================================================================== *)
(** ** The VTX frequency table *)

Module Vtx58.

Definition VTX_STRING_BAND_COUNT : Z := 2.
Definition VTX_STRING_CHAN_COUNT : Z := 8.

Definition vtx58frequencyTable : list (list Z) :=
  [ [ 5658; 5695; 5732; 5769; 5806; 5843; 5880; 5917 ];   (* RaceBand *)
    [ 5362; 5399; 5436; 5473; 5510; 5547; 5584; 5621 ] ]. (* LowRaceBand *)

(** [vtx58frequencyTable[band][channel]] for indices inside the table. *)
Definition table_at (band channel : Z) : Z :=
  nth (Z.to_nat channel) (nth (Z.to_nat band) vtx58frequencyTable []) 0.

(** The inner loop [for (channel = 0; channel < CHAN_COUNT; channel++)]:
    [n] is the number of iterations left, [channel] the loop variable. *)
Fixpoint chan_loop (n : nat) (band channel freq : Z) : option (Z * Z) :=
  match n with
  | O => None
  | S n' =>
      if table_at band channel =? freq
      then Some (uint8_t (band + 1), uint8_t (channel + 1))
      else chan_loop n' band (channel + 1) freq
  end.

(** The outer loop [for (band = BAND_COUNT - 1; band >= 0; band--)]. *)
Fixpoint band_loop (n : nat) (band freq : Z) : option (Z * Z) :=
  match n with
  | O => None
  | S n' =>
      match chan_loop (Z.to_nat VTX_STRING_CHAN_COUNT) band 0 freq with
      | Some r => Some r
      | None => band_loop n' (band - 1) freq
      end
  end.

(** [vtx58_Freq2Bandchan freq] returns the boolean result together with
    the values left in [*pBand] and [*pChannel]. *)
Definition vtx58_Freq2Bandchan (freq : Z) : bool * Z * Z :=
  match band_loop (Z.to_nat VTX_STRING_BAND_COUNT)
                  (VTX_STRING_BAND_COUNT - 1) freq with
  | Some (b, c) => (true, b, c)
  | None => (false, 0, 0)
  end.

Definition vtx58_Bandchan2Freq (band channel : Z) : Z :=
  if (0 <? band) && (band <=? VTX_STRING_BAND_COUNT) &&
     (0 <? channel) && (channel <=? VTX_STRING_CHAN_COUNT)
  then table_at (band - 1) (channel - 1)
  else 0.

(** Membership of a frequency in the table. *)
Definition in_table (freq : Z) : Prop :=
  exists row, In row vtx58frequencyTable /\ In freq row.

End Vtx58.

(* ================================================================== *)
(** ** Single-precision arithmetic

    A binary32 value is kept as a dyadic number [mant * 2^expo] with an odd
    mantissa of at most 24 bits (zero is [0 * 2^0]).  Every operation
    computes the exact result and rounds it to 24 significant bits, ties to
    even.  Exponent range, infinities and NaN are not represented: the
    non-zero magnitudes that arise in the driver lie between 2^-8 and 2^28,
    well inside the normal range of binary32. *)

Module F32.

Record float := mk { mant : Z; expo : Z }.

(** The rational a float denotes. *)
Definition value (x : float) : Q :=
  (inject_Z (mant x) * Qpower (2 # 1) (expo x))%Q.

(** Odd part of a positive number and the number of trailing zero bits. *)
Fixpoint strip (p : positive) : positive * Z :=
  match p with
  | xO q => let (m, k) := strip q in (m, k + 1)
  | _ => (p, 0)
  end.

(** Canonical representation of [m * 2^e]. *)
Definition canon (m e : Z) : float :=
  match m with
  | Z0 => mk 0 0
  | Zpos p => let (q, k) := strip p in mk (Zpos q) (e + k)
  | Zneg p => let (q, k) := strip p in mk (Zneg q) (e + k)
  end.

(** Round [m * 2^e] to 24 significant bits, to nearest, ties to even. *)
Definition round (m e : Z) : float :=
  let a := Z.abs m in
  let s := Z.log2 a - 23 in
  if s <=? 0 then canon m e
  else
    let q := Z.shiftr a s in
    let r := a mod 2 ^ s in
    let half := 2 ^ (s - 1) in
    let q' := if r <? half then q
              else if half <? r then q + 1
              else if Z.even q then q else q + 1 in
    canon (Z.sgn m * q') (e + s).

(** Conversion of an integer to float. *)
Definition of_int (i : Z) : float := round i 0.

Definition align (x y : float) : Z * Z * Z :=
  let e := Z.min (expo x) (expo y) in
  (mant x * 2 ^ (expo x - e), mant y * 2 ^ (expo y - e), e).

Definition add (x y : float) : float :=
  let '(a, b, e) := align x y in round (a + b) e.

Definition sub (x y : float) : float :=
  let '(a, b, e) := align x y in round (a - b) e.

Definition mul (x y : float) : float :=
  round (mant x * mant y) (expo x + expo y).

(** Division: the quotient is computed with 40 extra bits and a sticky
    bit, then rounded.  A zero divisor (an infinity or NaN in binary32)
    is outside the model and yields zero; the driver only divides by the
    constant 256. *)
Definition div (x y : float) : float :=
  if mant y =? 0 then mk 0 0
  else
    let k := 40 + Z.log2 (Z.abs (mant y)) + 1 in
    let n := Z.abs (mant x) * 2 ^ k in
    let d := Z.abs (mant y) in
    let q := n / d in
    let sticky := if n mod d =? 0 then 0 else 1 in
    round (Z.sgn (mant x) * Z.sgn (mant y) * (2 * q + sticky))
          (expo x - expo y - k - 1).

(** Conversion of a float to an integer: the fractional part is
    discarded (truncation toward zero). *)
Definition trunc (x : float) : Z :=
  if 0 <=? expo x then mant x * 2 ^ expo x
  else Z.quot (mant x) (2 ^ (- expo x)).

(** Conversion to [int16_t].  C leaves the result undefined when the
    truncated value does not fit; the model keeps the low 16 bits, which
    is what the conversion through a 32-bit integer register followed by
    a half-word store produces on the targets of this firmware. *)
Definition to_int16 (x : float) : Z := int16_t (trunc x).

Definition one : float := mk 1 0.

End F32.

(* ================================================================== *)
(** ** The machine the driver runs on *)

(** Registers of the MPU through which the SPI build reaches the compass
    (declared in [accgyro_mpu.h]; only their identity matters here). *)
Inductive mpu_reg :=
| MPU_RA_I2C_SLV0_ADDR
| MPU_RA_I2C_SLV0_REG
| MPU_RA_I2C_SLV0_CTRL
| MPU_RA_I2C_SLV0_DO
| MPU_RA_EXT_SENS_DATA_00.

(** What the driver does to the outside world, in program order. *)
Inductive event :=
| EvSpiWrite (reg : mpu_reg) (data : Z)   (* spiBusWriteRegister *)
| EvSpiRead (reg : mpu_reg) (len : Z)     (* spiBusReadRegisterBuffer *)
| EvI2cWrite (addr reg data : Z)          (* i2cWrite *)
| EvI2cRead (addr reg len : Z)            (* i2cRead *)
| EvDelayUs (us : Z)                      (* delayMicroseconds *)
| EvDelayMs (ms : Z)                      (* delay *)
| EvIrqOff                                (* __disable_irq *)
| EvIrqOn.                                (* __enable_irq *)

Record queuedReadState_t := mkQueuedRead {
  waiting : bool;
  len : Z;
  readStartedAt : Z   (* time read was queued in micros. *)
}.

Inductive ak8963ReadState_e :=
| CHECK_STATUS
| WAITING_FOR_STATUS
| WAITING_FOR_DATA.

(** Three values indexed by axis ([X], [Y], [Z] of [common/axis.h]). *)
Record vec3 (A : Type) := mkVec3 { vX : A; vY : A; vZ : A }.
Arguments mkVec3 {A} _ _ _.
Arguments vX {A} _.
Arguments vY {A} _.
Arguments vZ {A} _.

(** The whole state: the environment (clock, bus log, what the bus will
    answer) and the driver's static variables.

    [now] is the time since boot in microseconds, unbounded; [micros()]
    shows its low 32 bits.  [rx] holds, for the successive buffer reads,
    the acknowledgement and the bytes the bus delivers; [wx] holds the
    acknowledgements of the successive [i2cWrite] calls.  Bus transfers
    take no time in the model; only the delay calls advance the clock, and
    the time between two polls is arbitrary. *)
Record sys := mkSys {
  now : Z;
  trace : list event;
  rx : list (bool * list Z);
  wx : list bool;
  queuedRead : queuedReadState_t;   (* static queuedRead *)
  state : ak8963ReadState_e;        (* static state of ak8963Read *)
  magGain : vec3 F32.float          (* static magGain[3] *)
}.

Definition set_now (t : Z) (s : sys) : sys :=
  mkSys t (trace s) (rx s) (wx s) (queuedRead s) (state s) (magGain s).
Definition emit (e : event) (s : sys) : sys :=
  mkSys (now s) (trace s ++ [e]) (rx s) (wx s) (queuedRead s) (state s)
        (magGain s).
Definition set_rx (r : list (bool * list Z)) (s : sys) : sys :=
  mkSys (now s) (trace s) r (wx s) (queuedRead s) (state s) (magGain s).
Definition set_wx (r : list bool) (s : sys) : sys :=
  mkSys (now s) (trace s) (rx s) r (queuedRead s) (state s) (magGain s).
Definition set_queuedRead (q : queuedReadState_t) (s : sys) : sys :=
  mkSys (now s) (trace s) (rx s) (wx s) q (state s) (magGain s).
Definition set_state (st : ak8963ReadState_e) (s : sys) : sys :=
  mkSys (now s) (trace s) (rx s) (wx s) (queuedRead s) st (magGain s).
Definition set_magGain (g : vec3 F32.float) (s : sys) : sys :=
  mkSys (now s) (trace s) (rx s) (wx s) (queuedRead s) (state s) g.

(** The initial values of the static variables. *)
Definition boot (t : Z) (answers : list (bool * list Z)) (acks : list bool)
  : sys :=
  mkSys t [] answers acks (mkQueuedRead false 0 0) CHECK_STATUS
        (mkVec3 F32.one F32.one F32.one).

(** *** State monad *)

Definition M (A : Type) : Type := sys -> A * sys.

Definition ret {A} (a : A) : M A := fun s => (a, s).
Definition bind {A B} (m : M A) (k : A -> M B) : M B :=
  fun s => let (a, s') := m s in k a s'.
Definition get {A} (f : sys -> A) : M A := fun s => (f s, s).
Definition modify (f : sys -> sys) : M unit := fun s => (tt, f s).

Declare Scope m_scope.
Delimit Scope m_scope with m.
Notation "x <- m ;; k" := (bind m (fun x => k))
  (at level 61, m at next level, right associativity) : m_scope.
Notation "m ;; k" := (bind m (fun _ => k))
  (at level 61, right associativity) : m_scope.
Local Open Scope m_scope.

(** *** Primitives of the platform *)

Definition micros : M Z := get (fun s => uint32_t (now s)).

Definition delayMicroseconds (us : Z) : M unit :=
  modify (fun s => emit (EvDelayUs us) (set_now (now s + us) s)).

Definition delay (ms : Z) : M unit :=
  modify (fun s => emit (EvDelayMs ms) (set_now (now s + 1000 * ms) s)).

Definition __disable_irq : M unit := modify (emit EvIrqOff).
Definition __enable_irq : M unit := modify (emit EvIrqOn).

(** A buffer read of [n] bytes stores the bytes the bus delivered (at most
    [n] of them) at the start of the caller's buffer and leaves the rest of
    the buffer as it was. *)
Definition store (buf : list Z) (n : Z) (data : list Z) : list Z :=
  let d := firstn (Z.to_nat n) (map uint8_t data) in
  firstn (length buf) (d ++ skipn (length d) buf).

(** The next answer of the bus to a buffer read; a bus that has nothing
    more to say does not acknowledge and delivers nothing. *)
Definition next_rx : M (bool * list Z) :=
  fun s => match rx s with
           | [] => ((false, []), s)
           | a :: r => (a, set_rx r s)
           end.

Definition next_wx : M bool :=
  fun s => match wx s with
           | [] => (false, s)
           | a :: r => (a, set_wx r s)
           end.

Definition spiBusWriteRegister (reg : mpu_reg) (data : Z) : M bool :=
  modify (emit (EvSpiWrite reg data)) ;; ret true.

(** Returns the acknowledgement and the buffer after the transfer. *)
Definition spiBusReadRegisterBuffer (reg : mpu_reg) (buf : list Z) (n : Z)
  : M (bool * list Z) :=
  modify (emit (EvSpiRead reg n)) ;;
  a <- next_rx ;;
  ret (fst a, store buf n (snd a)).

Definition i2cRead (addr reg n : Z) (buf : list Z) : M (bool * list Z) :=
  modify (emit (EvI2cRead addr reg n)) ;;
  a <- next_rx ;;
  ret (fst a, store buf n (snd a)).

Definition i2cWrite (addr reg data : Z) : M bool :=
  modify (emit (EvI2cWrite addr reg data)) ;;
  next_wx.

(* ================================================================== *)
(** ** compass_ak8963.c *)

Definition AK8963_MAG_I2C_ADDRESS : Z := 0x0C.
Definition AK8963_Device_ID : Z := 0x48.

Definition AK8963_MAG_REG_WHO_AM_I : Z := 0x00.
Definition AK8963_MAG_REG_STATUS1 : Z := 0x02.
Definition AK8963_MAG_REG_HXL : Z := 0x03.
Definition AK8963_MAG_REG_STATUS2 : Z := 0x09.
Definition AK8963_MAG_REG_CNTL1 : Z := 0x0a.
Definition AK8963_MAG_REG_CNTL2 : Z := 0x0b.
Definition AK8963_MAG_REG_ASAX : Z := 0x10.

Definition READ_FLAG : Z := 0x80.

Definition STATUS1_DATA_READY : Z := 0x01.
Definition STATUS2_DATA_ERROR : Z := 0x02.
Definition STATUS2_MAG_SENSOR_OVERFLOW : Z := 0x03.

Definition CNTL1_MODE_POWER_DOWN : Z := 0x00.
Definition CNTL1_MODE_ONCE : Z := 0x01.
Definition CNTL1_MODE_FUSE_ROM : Z := 0x0F.

(** [buf[i]], read from an array of [uint8_t]. *)
Definition byte_at (buf : list Z) (i : nat) : Z := uint8_t (nth i buf 0).

(** *** Code shared by the two builds

    [ak8963SensorRead] and [ak8963SensorWrite] are chosen by the
    preprocessor; the functions that call them are written once over this
    interface. *)

Class SensorBus := {
  ak8963SensorRead : Z -> Z -> Z -> list Z -> M (bool * list Z);
  ak8963SensorWrite : Z -> Z -> Z -> M bool
}.

(** One axis of the conversion at the end of [ak8963Read]:
    [-(int16_t)(hi << 8 | lo) * gain], stored into an [int16_t]. *)
Definition axis_value (lo hi : Z) (gain : F32.float) : Z :=
  F32.to_int16
    (F32.mul (F32.of_int (- int16_t (Z.lor (Z.shiftl hi 8) lo))) gain).

(** The gain computed from one calibration byte by [ak8963Init]. *)
Definition gain_of (c : Z) : F32.float :=
  F32.mul
    (F32.add
       (F32.div (F32.sub (F32.of_int (int8_t c)) (F32.of_int 128))
                (F32.of_int 256))
       (F32.of_int 1))
    (F32.of_int 30).

Section Shared.
Context {bus : SensorBus}.

(** [calibration] and [status] are the contents of the uninitialised
    locals on entry. *)
Definition ak8963Init (calibration : list Z) (status : list Z) : M bool :=
  ak8963SensorWrite AK8963_MAG_I2C_ADDRESS AK8963_MAG_REG_CNTL1
                    CNTL1_MODE_POWER_DOWN ;;
  ak8963SensorWrite AK8963_MAG_I2C_ADDRESS AK8963_MAG_REG_CNTL1
                    CNTL1_MODE_FUSE_ROM ;;
  r <- ak8963SensorRead AK8963_MAG_I2C_ADDRESS AK8963_MAG_REG_ASAX 3
                        calibration ;;
  let calibration := snd r in
  modify (set_magGain
            (mkVec3 (gain_of (byte_at calibration 0))
                    (gain_of (byte_at calibration 1))
                    (gain_of (byte_at calibration 2)))) ;;
  ak8963SensorWrite AK8963_MAG_I2C_ADDRESS AK8963_MAG_REG_CNTL1
                    CNTL1_MODE_POWER_DOWN ;;
  r1 <- ak8963SensorRead AK8963_MAG_I2C_ADDRESS AK8963_MAG_REG_STATUS1 1
                         status ;;
  ak8963SensorRead AK8963_MAG_I2C_ADDRESS AK8963_MAG_REG_STATUS2 1
                   (snd r1) ;;
  ak8963SensorWrite AK8963_MAG_I2C_ADDRESS AK8963_MAG_REG_CNTL1
                    CNTL1_MODE_ONCE ;;
  ret true.

(** The end of [ak8963Read], from [uint8_t status2 = buf[6]] on, which
    both builds reach with [ack] and [buf] set.  [reset] is the
    assignment [state = CHECK_STATUS] of the SPI build.  The result is
    the returned value and the contents of [magData]. *)
Definition ak8963Read_tail (reset : M unit) (ack : bool) (buf : list Z)
           (magData : vec3 Z) : M (bool * vec3 Z) :=
  let status2 := byte_at buf 6 in
  if negb ack || test status2 STATUS2_DATA_ERROR
     || test status2 STATUS2_MAG_SENSOR_OVERFLOW
  then ret (false, magData)
  else
    g <- get magGain ;;
    let magData :=
      mkVec3 (axis_value (byte_at buf 0) (byte_at buf 1) (vX g))
             (axis_value (byte_at buf 2) (byte_at buf 3) (vY g))
             (axis_value (byte_at buf 4) (byte_at buf 5) (vZ g)) in
    reset ;;
    r <- ak8963SensorWrite AK8963_MAG_I2C_ADDRESS AK8963_MAG_REG_CNTL1
                           CNTL1_MODE_ONCE ;;
    ret (r, magData).

End Shared.

(** *** The SPI pass-through build
    ([MPU6500_SPI_INSTANCE] or [MPU9250_SPI_INSTANCE] defined) *)

Module Spi.

Definition spiWriteRegisterDelay (reg : mpu_reg) (data : Z) : M bool :=
  spiBusWriteRegister reg data ;;
  delayMicroseconds 10 ;;
  ret true.

Definition SensorRead (addr_ reg_ len_ : Z) (buf : list Z)
  : M (bool * list Z) :=
  spiWriteRegisterDelay MPU_RA_I2C_SLV0_ADDR
                        (uint8_t (Z.lor addr_ READ_FLAG)) ;;
  spiWriteRegisterDelay MPU_RA_I2C_SLV0_REG reg_ ;;
  spiWriteRegisterDelay MPU_RA_I2C_SLV0_CTRL (uint8_t (Z.lor len_ 0x80)) ;;
  delay 4 ;;
  __disable_irq ;;
  r <- spiBusReadRegisterBuffer MPU_RA_EXT_SENS_DATA_00 buf len_ ;;
  __enable_irq ;;
  ret r.

Definition SensorWrite (addr_ reg_ data : Z) : M bool :=
  spiWriteRegisterDelay MPU_RA_I2C_SLV0_ADDR addr_ ;;
  spiWriteRegisterDelay MPU_RA_I2C_SLV0_REG reg_ ;;
  spiWriteRegisterDelay MPU_RA_I2C_SLV0_DO data ;;
  spiWriteRegisterDelay MPU_RA_I2C_SLV0_CTRL 0x81 ;;
  ret true.

#[export] Instance bus : SensorBus :=
  {| ak8963SensorRead := SensorRead; ak8963SensorWrite := SensorWrite |}.

Definition set_waiting (b : bool) (q : queuedReadState_t) :=
  mkQueuedRead b (len q) (readStartedAt q).
Definition set_len (n : Z) (q : queuedReadState_t) :=
  mkQueuedRead (waiting q) n (readStartedAt q).
Definition set_readStartedAt (t : Z) (q : queuedReadState_t) :=
  mkQueuedRead (waiting q) (len q) t.

Definition ak8963SensorStartRead (addr_ reg_ len_ : Z) : M bool :=
  q <- get queuedRead ;;
  if waiting q then ret false
  else
    modify (fun s => set_queuedRead (set_len len_ (queuedRead s)) s) ;;
    spiWriteRegisterDelay MPU_RA_I2C_SLV0_ADDR
                          (uint8_t (Z.lor addr_ READ_FLAG)) ;;
    spiWriteRegisterDelay MPU_RA_I2C_SLV0_REG reg_ ;;
    spiWriteRegisterDelay MPU_RA_I2C_SLV0_CTRL
                          (uint8_t (Z.lor len_ 0x80)) ;;
    t <- micros ;;
    modify (fun s => set_queuedRead (set_readStartedAt t (queuedRead s)) s) ;;
    modify (fun s => set_queuedRead (set_waiting true (queuedRead s)) s) ;;
    ret true.

(** The two subtractions are done in 32 bits: the first on [uint32_t]
    and converted to [int32_t], the second on [int32_t]. *)
Definition ak8963SensorQueuedReadTimeRemaining : M Z :=
  q <- get queuedRead ;;
  if negb (waiting q) then ret 0
  else
    t <- micros ;;
    let timeSinceStarted := int32_t (uint32_t (t - readStartedAt q)) in
    let timeRemaining := int32_t (8000 - timeSinceStarted) in
    if timeRemaining <? 0 then ret 0
    else ret (uint32_t timeRemaining).

Definition ak8963SensorCompleteRead (buf : list Z) : M (bool * list Z) :=
  timeRemaining <- ak8963SensorQueuedReadTimeRemaining ;;
  (if 0 <? timeRemaining then delayMicroseconds timeRemaining
   else ret tt) ;;
  modify (fun s => set_queuedRead (set_waiting false (queuedRead s)) s) ;;
  q <- get queuedRead ;;
  r <- spiBusReadRegisterBuffer MPU_RA_EXT_SENS_DATA_00 buf (len q) ;;
  ret (true, snd r).

(** [state++] *)
Definition state_incr : M unit :=
  modify (fun s => set_state
                     match state s with
                     | CHECK_STATUS => WAITING_FOR_STATUS
                     | _ => WAITING_FOR_DATA
                     end s).

(** How one pass through the [switch] of [ak8963Read] ends. *)
Inductive flow :=
| Return (r : bool)                    (* return r; *)
| Restart (retry : bool) (buf : list Z)  (* goto restart; *)
| Break (ack : bool) (buf : list Z).   (* leaves the switch *)

Definition ak8963Read_switch (retry : bool) (buf : list Z) : M flow :=
  st <- get state ;;
  match st with
  | CHECK_STATUS =>
      ak8963SensorStartRead AK8963_MAG_I2C_ADDRESS AK8963_MAG_REG_STATUS1 1 ;;
      state_incr ;;
      ret (Return false)
  | WAITING_FOR_STATUS =>
      timeRemaining <- ak8963SensorQueuedReadTimeRemaining ;;
      if negb (timeRemaining =? 0) then ret (Return false)
      else
        r <- ak8963SensorCompleteRead buf ;;
        let ack := fst r in
        let buf := snd r in
        let status := byte_at buf 0 in
        if negb ack || (Z.land status STATUS1_DATA_READY =? 0) then
          (* too early. queue the status read again *)
          modify (set_state CHECK_STATUS) ;;
          if retry then ret (Restart false buf)
          else ret (Return false)
        else
          (* read the 6 bytes of data and the status2 register *)
          ak8963SensorStartRead AK8963_MAG_I2C_ADDRESS
                                AK8963_MAG_REG_HXL 7 ;;
          state_incr ;;
          ret (Return false)
  | WAITING_FOR_DATA =>
      timeRemaining <- ak8963SensorQueuedReadTimeRemaining ;;
      if negb (timeRemaining =? 0) then ret (Return false)
      else
        r <- ak8963SensorCompleteRead buf ;;
        ret (Break (fst r) (snd r))
  end.

(** What a call of [ak8963Read] yields: the returned value, the contents
    of [magData], and the states the [switch] was entered with, in
    order (a record of the control flow, not a program variable). *)
Record result := mkResult {
  newData : bool;
  magData : vec3 Z;
  arms : list ak8963ReadState_e
}.

(** [ak8963Read] from the label [restart] on.  [fuel] bounds the number
    of passes through the label; [None] means the bound was reached. *)
Fixpoint ak8963Read_restart (fuel : nat) (retry : bool) (buf : list Z)
         (data : vec3 Z) (seen : list ak8963ReadState_e)
  : M (option result) :=
  match fuel with
  | O => ret None
  | S fuel' =>
      st <- get state ;;
      f <- ak8963Read_switch retry buf ;;
      match f with
      | Return r => ret (Some (mkResult r data (seen ++ [st])))
      | Restart retry' buf' =>
          ak8963Read_restart fuel' retry' buf' data (seen ++ [st])
      | Break ack buf' =>
          r <- ak8963Read_tail (modify (set_state CHECK_STATUS))
                               ack buf' data ;;
          ret (Some (mkResult (fst r) (snd r) (seen ++ [st])))
      end
  end.

(** [magData] holds the caller's array on entry, [buf] the contents of
    the uninitialised local. *)
Definition ak8963Read (fuel : nat) (magData : vec3 Z) (buf : list Z)
  : M (option result) :=
  ak8963Read_restart fuel true buf magData [].

End Spi.

(** *** The direct I2C build *)

Module I2c.

Definition SensorRead (addr_ reg_ len : Z) (buf : list Z)
  : M (bool * list Z) :=
  i2cRead addr_ reg_ len buf.

Definition SensorWrite (addr_ reg_ data : Z) : M bool :=
  i2cWrite addr_ reg_ data.

#[export] Instance bus : SensorBus :=
  {| ak8963SensorRead := SensorRead; ak8963SensorWrite := SensorWrite |}.

Definition ak8963Read (magData : vec3 Z) (buf : list Z)
  : M (bool * vec3 Z) :=
  r <- ak8963SensorRead AK8963_MAG_I2C_ADDRESS AK8963_MAG_REG_STATUS1 1
                        buf ;;
  let ack := fst r in
  let buf := snd r in
  let status := byte_at buf 0 in
  if negb ack || (Z.land status STATUS1_DATA_READY =? 0)
  then ret (false, magData)
  else
    r <- ak8963SensorRead AK8963_MAG_I2C_ADDRESS AK8963_MAG_REG_HXL 7
                          buf ;;
    ak8963Read_tail (ret tt) (fst r) (snd r) magData.

End I2c.


(* ================================================================== *)
(** * Vocabulary of the specification

    Definitions used to state the properties: observations of a state,
    the properties that are stated for a family of states, and the
    concrete states the examples run on. *)

Module Spec.
Import Spi.

(** The settle delay of a proxied read, in microseconds. *)
Definition SETTLE_DELAY : Z := 8000.

(** The value [ak8963SensorQueuedReadTimeRemaining] returns in [s]. *)
Definition timeRemaining (s : sys) : Z :=
  fst (ak8963SensorQueuedReadTimeRemaining s).

(** What the bus answers to the next buffer read. *)
Definition answer (s : sys) : bool * list Z := hd (false, []) (rx s).

(** [t0] is the time since boot at which the read recorded in the
    tracker was started. *)
Definition issued_at (s : sys) (t0 : Z) : Prop :=
  0 <= t0 <= now s /\ readStartedAt (queuedRead s) = uint32_t t0.

(** The contract of [ak8963SensorQueuedReadTimeRemaining] in a state [s]
    whose pending read was started at [t0]; [valid] says which elapsed
    times the contract is stated for. *)
Definition timeRemaining_spec (valid : Z -> Prop) (s : sys) (t0 : Z)
  : Prop :=
  (waiting (queuedRead s) = false -> timeRemaining s = 0) /\
  (waiting (queuedRead s) = true -> issued_at s t0 ->
   valid (now s - t0) ->
   timeRemaining s = Z.max 0 (SETTLE_DELAY - (now s - t0)) /\
   (t0 + SETTLE_DELAY <= now s -> timeRemaining s = 0) /\
   (forall s',
       readStartedAt (queuedRead s') = readStartedAt (queuedRead s) ->
       now s <= now s' -> valid (now s' - t0) ->
       timeRemaining s' <= timeRemaining s)).

(** The contract of [ak8963SensorCompleteRead] called with buffer [buf]
    in a state [s] whose pending read, if any, was started at [t0].  What
    the call does is stated for every state; [valid] says for which
    elapsed times the bound on the wait is stated. *)
Definition completeRead_spec (valid : Z -> Prop) (s : sys) (t0 : Z)
           (buf : list Z) : Prop :=
  let r := timeRemaining s in
  let out := ak8963SensorCompleteRead buf s in
  let s' := snd out in
  ((waiting (queuedRead s) = true ->
    issued_at s t0 /\ valid (now s - t0)) ->
   r <= SETTLE_DELAY) /\
  now s' = now s + r /\
  trace s' = trace s
             ++ (if 0 <? r then [EvDelayUs r] else [])
             ++ [EvSpiRead MPU_RA_EXT_SENS_DATA_00 (len (queuedRead s))] /\
  waiting (queuedRead s') = false /\
  snd (fst out) = store buf (len (queuedRead s)) (snd (answer s)).

(** Every elapsed time. *)
Definition always (d : Z) : Prop := True.

(** Less than 2^31 microseconds (about 35.8 minutes) elapsed. *)
Definition within_half_range (d : Z) : Prop := d < 2147483648.

(** The signed 16-bit value of a little-endian register pair. *)
Definition le_int16 (lo hi : Z) : Z :=
  let u := lo + 256 * hi in
  if u <? 32768 then u else u - 65536.

(** The gain formula of the specification, over the rationals, for a
    signed trim value. *)
Definition gain_formula (trim : Z) : Q :=
  (((inject_Z trim - 128) / 256 + 1) * 30)%Q.

(** The four register writes by which the SPI build sends one byte to
    the compass, with their settle delays. *)
Definition spi_write_events (addr reg data : Z) : list event :=
  [EvSpiWrite MPU_RA_I2C_SLV0_ADDR addr; EvDelayUs 10;
   EvSpiWrite MPU_RA_I2C_SLV0_REG reg; EvDelayUs 10;
   EvSpiWrite MPU_RA_I2C_SLV0_DO data; EvDelayUs 10;
   EvSpiWrite MPU_RA_I2C_SLV0_CTRL 0x81; EvDelayUs 10].

(** The three register writes by which the SPI build queues a read. *)
Definition spi_start_events (addr reg n : Z) : list event :=
  [EvSpiWrite MPU_RA_I2C_SLV0_ADDR (uint8_t (Z.lor addr READ_FLAG));
   EvDelayUs 10;
   EvSpiWrite MPU_RA_I2C_SLV0_REG reg; EvDelayUs 10;
   EvSpiWrite MPU_RA_I2C_SLV0_CTRL (uint8_t (Z.lor n 0x80));
   EvDelayUs 10].

(** The re-arm command: CNTL1 is set to the measure-once mode. *)
Definition rearm_events : list event :=
  spi_write_events AK8963_MAG_I2C_ADDRESS AK8963_MAG_REG_CNTL1
                   CNTL1_MODE_ONCE.

(** Is [e] the data byte of a re-arm command? *)
Definition is_rearm (e : event) : bool :=
  match e with
  | EvSpiWrite MPU_RA_I2C_SLV0_DO d => d =? CNTL1_MODE_ONCE
  | _ => false
  end.

(** Is [e] a write to a register of the MPU? *)
Definition is_write (e : event) : bool :=
  match e with
  | EvSpiWrite _ _ => true
  | _ => false
  end.

(** The state with every pending bus answer acknowledged. *)
Definition ack_all (s : sys) : sys :=
  set_rx (map (fun a => (true, snd a)) (rx s)) s.

(** [status2] passes the two tests of [ak8963Read]: it has no bit in
    common with [STATUS2_DATA_ERROR] (0x02) nor with
    [STATUS2_MAG_SENSOR_OVERFLOW] (0x03, which the code uses as a mask). *)
Definition status2_clean (status2 : Z) : Prop :=
  test status2 STATUS2_DATA_ERROR = false /\
  test status2 STATUS2_MAG_SENSOR_OVERFLOW = false.

(** The values [ak8963Read] writes for a buffer [buf] and gains [g]. *)
Definition sample (buf : list Z) (g : vec3 F32.float) : vec3 Z :=
  mkVec3
    (F32.to_int16 (F32.mul (F32.of_int (- le_int16 (byte_at buf 0)
                                                   (byte_at buf 1)))
                           (vX g)))
    (F32.to_int16 (F32.mul (F32.of_int (- le_int16 (byte_at buf 2)
                                                   (byte_at buf 3)))
                           (vY g)))
    (F32.to_int16 (F32.mul (F32.of_int (- le_int16 (byte_at buf 4)
                                                   (byte_at buf 5)))
                           (vZ g))).

(** A state in which a read has been pending for 2^31 + 8001
    microseconds. *)
Definition s_late : sys :=
  set_queuedRead (mkQueuedRead true 1 0) (boot 2147491649 [(true, [1])] []).

(** A state 3 ms after a status read was queued. *)
Definition s_early : sys :=
  set_queuedRead (mkQueuedRead true 1 1000) (boot 4000 [(true, [1])] []).



(** The number of re-arm commands in a log. *)
Definition count_rearm (l : list event) : nat :=
  length (filter is_rearm l).

Definition zero3 : vec3 Z := mkVec3 0 0 0.
Definition buf7 : list Z := [0; 0; 0; 0; 0; 0; 0].

(** Ten milliseconds after the data read was queued; the sensor reports
    a data error in status2. *)
Definition s_fault : sys :=
  set_state WAITING_FOR_DATA
    (set_queuedRead (mkQueuedRead true 7 1000)
       (boot 11000 [(true, [0x10; 0; 0x20; 0; 0x30; 0; 0x02])] [])).

(** Ten milliseconds after the status read was queued; the bus will
    deliver a status byte with DATA_READY and then a clean sample. *)
Definition s_ready : sys :=
  set_magGain (mkVec3 (F32.of_int 30) (F32.of_int 30) (F32.of_int 30))
    (set_state WAITING_FOR_STATUS
       (set_queuedRead (mkQueuedRead true 1 1000)
          (boot 11000 [(true, [0x01]);
                       (false, [0x10; 0; 0x20; 0; 0x30; 0; 0x00])] []))).


(** The 256 values of a byte. *)
Definition all_bytes : list Z := map Z.of_nat (seq 0 256).

(** The float [x] denotes the rational [n / 2^k]. *)
Definition denotes (x : F32.float) (n k : Z) : Prop :=
  0 <= k /\ 0 <= F32.expo x + k /\ F32.mant x * 2 ^ (F32.expo x + k) = n.

(** [m] behaves the same whether or not the bus acknowledges. *)
Definition ack_blind {A} (m : M A) : Prop :=
  forall s, m (ack_all s) = (fst (m s), ack_all (snd (m s))).

(** [m] leaves the observation [f] of the state as it was. *)
Definition keeps {A B} (f : sys -> B) (m : M A) : Prop :=
  forall s, f (snd (m s)) = f s.

End Spec.

(* ================================================================== *)
(** * The rest of the two files *)

(** ** The name tables of the VTX file *)

Module Vtx58Names.

Definition vtx58BandNames : list String.string :=
  [ "--------"%string; "RACEBAND"%string; "LOWRACEB"%string ].

Definition vtx58BandLetter : String.string := "-RL"%string.

Definition vtx58ChannelNames : list String.string :=
  [ "-"%string; "1"%string; "2"%string; "3"%string; "4"%string;
    "5"%string; "6"%string; "7"%string; "8"%string ].

(** The position of a frequency in the table read as one ascending
    sequence: LowRaceBand channel 1 is 0, RaceBand channel 8 is 15. *)
Definition slot (band channel : Z) : Z :=
  (Vtx58.VTX_STRING_BAND_COUNT - band) * Vtx58.VTX_STRING_CHAN_COUNT
  + (channel - 1).

End Vtx58Names.

(** ** ak8963Detect *)

Module Detect.

Definition CNTL2_SOFT_RESET : Z := 0x01.

(** The driver functions a [magDev_t] can point to. *)
Inductive magFn :=
| Fn_ak8963Init
| Fn_ak8963Read.

(** The fields of [magDev_t] that [ak8963Detect] writes: the bus handle
    and the two function pointers ([None] is a pointer not set by this
    driver).  The type of the bus handle, [busDevice_t], is declared in
    [drivers/bus.h], which is not among the sources at hand: it is a
    parameter. *)
Record magDev_t (busDevice_t : Type) := mkMagDev {
  bus : busDevice_t;
  init : option magFn;
  read : option magFn
}.
Arguments mkMagDev {busDevice_t} _ _ _.
Arguments bus {busDevice_t} _.
Arguments init {busDevice_t} _.
Arguments read {busDevice_t} _.

(** The static [busDevice_t *bus] of the SPI build: [NULL], its initial
    value, or the address of the bus handle of the device last given to
    [ak8963Detect], the only value the driver assigns to it. *)
Inductive bus_ptr :=
| NULL
| MagBus.

(** *** The SPI pass-through build *)

Module SpiBuild.
Section Platform.
Context {busDevice_t SPI_TypeDef : Type}.

(** [spiBusSetInstance(&mag->bus, instance)] changes the bus handle it is
    given; its body is in [drivers/bus_spi.c], outside the sources at
    hand.  [SPI_INSTANCE] is [MPU6500_SPI_INSTANCE] or
    [MPU9250_SPI_INSTANCE], whichever the target defines. *)
Variable spiBusSetInstance : busDevice_t -> SPI_TypeDef -> busDevice_t.
Variable SPI_INSTANCE : SPI_TypeDef.

(** The registers of the MPU's I2C master ([MPU_RA_INT_PIN_CFG],
    [MPU_RA_I2C_MST_CTRL], [MPU_RA_USER_CTRL]) and the value written to
    the first ([MPU6500_BIT_INT_ANYRD_2CLEAR | MPU6500_BIT_BYPASS_EN]) are
    declared in headers outside the sources at hand. *)
Variables INT_PIN_CFG I2C_MST_CTRL USER_CTRL : mpu_reg.
Variable pin_cfg : Z.

(** [ak8963Detect] of the SPI build.  The result is the returned value,
    the device structure and the static [bus] pointer on return. *)
Definition ak8963Detect (mag : magDev_t busDevice_t)
  : M (bool * magDev_t busDevice_t * bus_ptr) :=
  let sig := [0] in
  let bus_static := MagBus in                       (* bus = &mag->bus; *)
  let mag := mkMagDev (spiBusSetInstance (bus mag) SPI_INSTANCE)
                      (init mag) (read mag) in
  (* initialze I2C master via SPI bus (MPU9250) *)
  Spi.spiWriteRegisterDelay INT_PIN_CFG pin_cfg ;;
  Spi.spiWriteRegisterDelay I2C_MST_CTRL 0x0D ;;
  Spi.spiWriteRegisterDelay USER_CTRL 0x30 ;;
  Spi.SensorWrite AK8963_MAG_I2C_ADDRESS AK8963_MAG_REG_CNTL2
                  CNTL2_SOFT_RESET ;;
  delay 4 ;;
  r <- Spi.SensorRead AK8963_MAG_I2C_ADDRESS AK8963_MAG_REG_WHO_AM_I 1
                      sig ;;
  let ack := fst r in
  let sig := byte_at (snd r) 0 in
  if ack && (sig =? AK8963_Device_ID)
  then ret (true,
            mkMagDev (bus mag) (Some Fn_ak8963Init) (Some Fn_ak8963Read),
            bus_static)
  else ret (false, mag, bus_static).

End Platform.
End SpiBuild.

(** *** The direct I2C build *)

Module I2cBuild.

(** [ak8963Detect] of the I2C build, which has no static bus pointer and
    does not touch the bus handle of the device. *)
Definition ak8963Detect {busDevice_t : Type} (mag : magDev_t busDevice_t)
  : M (bool * magDev_t busDevice_t) :=
  let sig := [0] in
  I2c.SensorWrite AK8963_MAG_I2C_ADDRESS AK8963_MAG_REG_CNTL2
                  CNTL2_SOFT_RESET ;;
  delay 4 ;;
  r <- I2c.SensorRead AK8963_MAG_I2C_ADDRESS AK8963_MAG_REG_WHO_AM_I 1
                      sig ;;
  let ack := fst r in
  let sig := byte_at (snd r) 0 in
  if ack && (sig =? AK8963_Device_ID)
  then ret (true,
            mkMagDev (bus mag) (Some Fn_ak8963Init) (Some Fn_ak8963Read))
  else ret (false, mag).

End I2cBuild.

End Detect.

(** ** Vocabulary for runs of the driver *)

Module Runs.
Import Spi Spec.

(** What the state machine and the tracker agree on between two polls. *)
Definition consistent (s : sys) : Prop :=
  match state s with
  | CHECK_STATUS => waiting (queuedRead s) = false
  | WAITING_FOR_STATUS =>
      waiting (queuedRead s) = true /\ len (queuedRead s) = 1
  | WAITING_FOR_DATA => len (queuedRead s) = 7
  end.

(** The states the SPI build can be in: after boot, time passes, the bus
    changes what it will answer, and the driver functions are called. *)
Inductive reachable : sys -> Prop :=
| reach_boot (t : Z) (answers : list (bool * list Z)) (acks : list bool) :
    reachable (boot t answers acks)
| reach_time (s : sys) (t : Z) :
    reachable s -> reachable (set_now t s)
| reach_bus (s : sys) (answers : list (bool * list Z)) :
    reachable s -> reachable (set_rx answers s)
| reach_detect (s : sys) (busDevice_t SPI_TypeDef : Type)
               (set : busDevice_t -> SPI_TypeDef -> busDevice_t)
               (instance : SPI_TypeDef) (r1 r2 r3 : mpu_reg) (v : Z)
               (mag : Detect.magDev_t busDevice_t) :
    reachable s ->
    reachable (snd (Detect.SpiBuild.ak8963Detect set instance r1 r2 r3 v
                                                 mag s))
| reach_init (s : sys) (calibration status : list Z) :
    reachable s ->
    reachable (snd (@ak8963Init Spi.bus calibration status s))
| reach_read (s : sys) (data : vec3 Z) (buf : list Z) :
    reachable s -> reachable (snd (ak8963Read 2 data buf s)).

(** The value returned by a call of [ak8963Read]. *)
Definition returned (out : option result * sys) : bool :=
  match fst out with
  | Some r => newData r
  | None => false
  end.

(** A sequence of polls: before each one the clock is set to the given
    time, and the poll runs with the given contents of its local buffer.
    The result is the list of returned values and the final state. *)
Fixpoint poll_many (ps : list (Z * list Z)) (data : vec3 Z) (s : sys)
  : list bool * sys :=
  match ps with
  | [] => ([], s)
  | (t, buf) :: ps' =>
      let out := ak8963Read 2 data buf (set_now t s) in
      let rest := poll_many ps' data (snd out) in
      (returned out :: fst rest, snd rest)
  end.

(** A bus answer that delivers seven bytes whose status2 fails the test
    of [ak8963Read]. *)
Definition faulty (a : bool * list Z) : Prop :=
  length (snd a) = 7%nat /\ ~ status2_clean (byte_at (snd a) 6).

(** Is [e] a write on the I2C bus? *)
Definition is_i2c_write (e : event) : bool :=
  match e with
  | EvI2cWrite _ _ _ => true
  | _ => false
  end.

(** The events of a blocking read of the SPI build. *)
Definition spi_read_events (addr reg n : Z) : list event :=
  spi_start_events addr reg n
  ++ [EvDelayMs 4; EvIrqOff; EvSpiRead MPU_RA_EXT_SENS_DATA_00 n; EvIrqOn].

(** The bytes of an answer, as they arrive in a buffer of their size. *)
Definition delivered (a : bool * list Z) : list Z := map uint8_t (snd a).

(** An idle tracker at time [t] with one status answer pending. *)
Definition s_idle : sys := boot 5000 [(true, [0x01])] [].

(** The I2C build with a ready status, a clean sample and a bus that does
    not acknowledge the re-arm write. *)
Definition s_i2c : sys :=
  set_magGain (mkVec3 (F32.of_int 30) (F32.of_int 30) (F32.of_int 30))
    (boot 0 [(true, [0x01]); (true, [0x10; 0; 0x20; 0; 0x30; 0; 0x00])]
          [false]).

(** After a fault: WAITING_FOR_DATA with nothing pending, and a bus whose
    shadow registers keep showing the faulty sample. *)
Definition s_stuck : sys :=
  set_state WAITING_FOR_DATA
    (set_queuedRead (mkQueuedRead false 7 1000)
       (boot 11000 [(true, [0x10; 0; 0x20; 0; 0x30; 0; 0x02]);
                    (true, [0x10; 0; 0x20; 0; 0x30; 0; 0x02])] [])).

End Runs.

(** ** Vocabulary for the amended claims *)

Module Stated.
Import Spi Spec Runs.






(** The signed 16-bit integer congruent to [z] modulo 2^16. *)
Definition wrap16 (z : Z) : Z := (z + 32768) mod 65536 - 32768.

(** The integer part of a rational, its fraction discarded. *)
Definition trunc_Q (q : Q) : Z := Z.quot (Qnum q) (Zpos (Qden q)).

(** What is stored for one axis: the negated little-endian signed value
    of the register pair, multiplied by the gain in single precision and
    converted to a signed 16-bit integer. *)
Definition stored (lo hi : Z) (gain : F32.float) : Z :=
  wrap16 (trunc_Q (F32.value
                     (F32.mul (F32.of_int (- le_int16 lo hi)) gain))).

Definition stored3 (buf : list Z) (g : vec3 F32.float) : vec3 Z :=
  mkVec3 (stored (byte_at buf 0) (byte_at buf 1) (vX g))
         (stored (byte_at buf 2) (byte_at buf 3) (vY g))
         (stored (byte_at buf 4) (byte_at buf 5) (vZ g)).

(** The three values fit a signed 16-bit integer. *)
Definition fits_int16 (v : vec3 Z) : Prop :=
  - 32768 <= vX v <= 32767 /\
  - 32768 <= vY v <= 32767 /\
  - 32768 <= vZ v <= 32767.

(** What the claim about the sample says of one call of the I2C build:
    with a ready status, acknowledged reads and a clean status2 the
    sample is stored and the call reports new data. *)
Definition i2c_read_claim (data : vec3 Z) (buf : list Z) (s : sys)
           (status : Z) (bytes : list Z) (rest : list (bool * list Z))
  : Prop :=
  length buf = 7%nat ->
  rx s = (true, [status]) :: (true, bytes) :: rest ->
  length bytes = 7%nat ->
  Z.land (uint8_t status) STATUS1_DATA_READY <> 0 ->
  status2_clean (byte_at bytes 6) ->
  fst (I2c.ak8963Read data buf s) = (true, stored3 bytes (magGain s)).

End Stated.

(* ================================================================== *)
(** * Properties *)

(** ** Running monadic code on a symbolic state *)

Section MonadLaws.
Context {A B C : Type}.

Lemma run_ret (a : A) (k : A -> M B) (s : sys) : bind (ret a) k s = k a s.
Proof. reflexivity. Qed.

Lemma run_get (f : sys -> A) (k : A -> M B) (s : sys) :
  bind (get f) k s = k (f s) s.
Proof. reflexivity. Qed.

Lemma run_modify (f : sys -> sys) (k : unit -> M B) (s : sys) :
  bind (modify f) k s = k tt (f s).
Proof. reflexivity. Qed.

Lemma run_assoc (m : M A) (k1 : A -> M B) (k2 : B -> M C) (s : sys) :
  bind (bind m k1) k2 s = bind m (fun a => bind (k1 a) k2) s.
Proof. unfold bind. destruct (m s). reflexivity. Qed.

Lemma run_if (b : bool) (m1 m2 : M A) (s : sys) :
  (if b then m1 else m2) s = if b then m1 s else m2 s.
Proof. destruct b; reflexivity. Qed.

Lemma end_ret (a : A) (s : sys) : ret a s = (a, s).
Proof. reflexivity. Qed.

Lemma end_get (f : sys -> A) (s : sys) : get f s = (f s, s).
Proof. reflexivity. Qed.

Lemma run_known (m : M A) (k : A -> M B) (s s' : sys) (a : A) :
  m s = (a, s') -> bind m k s = k a s'.
Proof. unfold bind. intros ->. reflexivity. Qed.
End MonadLaws.

Lemma end_modify (f : sys -> sys) (s : sys) : modify f s = (tt, f s).
Proof. reflexivity. Qed.

Create Rewrite HintDb mrun.
#[local] Hint Rewrite @run_ret @run_get @run_modify @run_assoc
  @end_ret @end_get end_modify : mrun.

(** Unfold the platform primitives and push the state through. *)
Ltac prims :=
  unfold Spi.spiWriteRegisterDelay, Spi.state_incr;
  unfold micros, delayMicroseconds, delay, __disable_irq, __enable_irq,
    spiBusWriteRegister, spiBusReadRegisterBuffer, i2cRead, i2cWrite.
Ltac fields :=
  unfold emit, set_now, set_rx, set_wx, set_queuedRead, set_state,
    set_magGain, Spi.set_waiting, Spi.set_len, Spi.set_readStartedAt;
  cbn [now trace rx wx queuedRead state magGain waiting len readStartedAt
       fst snd negb].
Ltac mrun := prims; repeat (autorewrite with mrun; fields).

(** ** Fixed-width arithmetic *)

Lemma int32_t_small (z : Z) :
  - 2147483648 <= z < 2147483648 -> int32_t z = z.
Proof.
  intros H. unfold int32_t, sint.
  change (2 ^ 32) with 4294967296. change (2 ^ (32 - 1)) with 2147483648.
  destruct (Z_lt_le_dec z 0) as [Hn | Hp].
  - assert (E : z mod 4294967296 = z + 4294967296).
    { symmetry. apply (Z.mod_unique z 4294967296 (-1)); lia. }
    rewrite E. destruct (Z.ltb_spec (z + 4294967296) 2147483648); lia.
  - rewrite Z.mod_small by lia.
    destruct (Z.ltb_spec z 2147483648); lia.
Qed.

Lemma uint32_t_small (z : Z) : 0 <= z < 4294967296 -> uint32_t z = z.
Proof. intros H. unfold uint32_t, uint. now apply Z.mod_small. Qed.

Lemma uint32_t_sub (a b : Z) :
  uint32_t (uint32_t a - uint32_t b) = uint32_t (a - b).
Proof. unfold uint32_t, uint. symmetry. apply Zminus_mod. Qed.

(** ** The queued-read tracker *)

Module TrackerFacts.
Import Spi Spec.
Local Open Scope m_scope.

Lemma next_rx_eq (s : sys) :
  next_rx s = (answer s, set_rx (tl (rx s)) s).
Proof.
  unfold next_rx, answer. destruct s as [t l r w q st g]; cbn.
  destruct r; reflexivity.
Qed.

Lemma TimeRemaining_eq (s : sys) :
  ak8963SensorQueuedReadTimeRemaining s = (timeRemaining s, s).
Proof.
  unfold timeRemaining, ak8963SensorQueuedReadTimeRemaining. mrun.
  destruct (waiting (queuedRead s)); cbn [negb]; mrun; [| reflexivity].
  match goal with |- context [if ?c then _ else _] => destruct c end;
    reflexivity.
Qed.

Lemma timeRemaining_idle (s : sys) :
  waiting (queuedRead s) = false -> timeRemaining s = 0.
Proof.
  intros W. unfold timeRemaining, ak8963SensorQueuedReadTimeRemaining.
  mrun. rewrite W. reflexivity.
Qed.

Lemma timeRemaining_waiting (s : sys) :
  waiting (queuedRead s) = true ->
  timeRemaining s =
  let timeSinceStarted :=
    int32_t (uint32_t (uint32_t (now s) - readStartedAt (queuedRead s))) in
  let r := int32_t (8000 - timeSinceStarted) in
  if r <? 0 then 0 else uint32_t r.
Proof.
  intros W. unfold timeRemaining, ak8963SensorQueuedReadTimeRemaining.
  mrun. rewrite W. cbn [negb]. mrun. cbv zeta.
  match goal with |- context [if ?c then _ else _] => destruct c end;
    reflexivity.
Qed.

Lemma timeRemaining_nonneg (s : sys) : 0 <= timeRemaining s.
Proof.
  destruct (waiting (queuedRead s)) eqn:W.
  - rewrite (timeRemaining_waiting s W). cbv zeta.
    match goal with |- context [if ?c then _ else _] => destruct c end;
      [lia |].
    unfold uint32_t, uint. apply Z.mod_pos_bound. reflexivity.
  - rewrite (timeRemaining_idle s W). lia.
Qed.

Lemma spiWriteRegisterDelay_eq (reg : mpu_reg) (d : Z) (s : sys) :
  spiWriteRegisterDelay reg d s
  = (true, mkSys (now s + 10) (trace s ++ [EvSpiWrite reg d; EvDelayUs 10])
                 (rx s) (wx s) (queuedRead s) (state s) (magGain s)).
Proof. mrun. rewrite <- app_assoc. reflexivity. Qed.

Lemma StartRead_pending (addr_ reg_ len_ : Z) (s : sys) :
  waiting (queuedRead s) = true ->
  ak8963SensorStartRead addr_ reg_ len_ s = (false, s).
Proof.
  intros W. unfold ak8963SensorStartRead. mrun. rewrite W. reflexivity.
Qed.

Lemma StartRead_idle (addr_ reg_ len_ : Z) (s : sys) :
  waiting (queuedRead s) = false ->
  ak8963SensorStartRead addr_ reg_ len_ s
  = (true,
     mkSys (now s + 30)
           (trace s ++
              [EvSpiWrite MPU_RA_I2C_SLV0_ADDR
                          (uint8_t (Z.lor addr_ READ_FLAG));
               EvDelayUs 10;
               EvSpiWrite MPU_RA_I2C_SLV0_REG reg_;
               EvDelayUs 10;
               EvSpiWrite MPU_RA_I2C_SLV0_CTRL (uint8_t (Z.lor len_ 0x80));
               EvDelayUs 10])
           (rx s) (wx s)
           (mkQueuedRead true len_ (uint32_t (now s + 30)))
           (state s) (magGain s)).
Proof.
  intros W. unfold ak8963SensorStartRead.
  rewrite run_get, W. cbv iota. rewrite run_modify.
  repeat (erewrite run_known by apply spiWriteRegisterDelay_eq; fields).
  mrun. rewrite <- !app_assoc. cbn [app].
  replace (now s + 10 + 10 + 10) with (now s + 30) by lia.
  reflexivity.
Qed.

Lemma CompleteRead_eq (buf : list Z) (s : sys) :
  ak8963SensorCompleteRead buf s
  = ((true, store buf (len (queuedRead s)) (snd (answer s))),
     mkSys (now s + timeRemaining s)
           (trace s ++
              (if 0 <? timeRemaining s
               then [EvDelayUs (timeRemaining s)] else []) ++
              [EvSpiRead MPU_RA_EXT_SENS_DATA_00 (len (queuedRead s))])
           (tl (rx s)) (wx s)
           (mkQueuedRead false (len (queuedRead s))
                         (readStartedAt (queuedRead s)))
           (state s) (magGain s)).
Proof.
  unfold ak8963SensorCompleteRead.
  erewrite run_known by apply TimeRemaining_eq.
  pose proof (timeRemaining_nonneg s) as Hr.
  destruct (Z.ltb_spec 0 (timeRemaining s)) as [Hp | Hz].
  - mrun. erewrite run_known by apply next_rx_eq. mrun.
    rewrite <- app_assoc. reflexivity.
  - mrun. erewrite run_known by apply next_rx_eq. mrun.
    replace (timeRemaining s) with 0 by lia. rewrite Z.add_0_r.
    reflexivity.
Qed.


Lemma elapsed_32 (s : sys) (t0 : Z) :
  issued_at s t0 -> now s - t0 < 2147483648 ->
  int32_t (uint32_t (uint32_t (now s) - readStartedAt (queuedRead s)))
  = now s - t0.
Proof.
  intros [Ht E] Hd. rewrite E, uint32_t_sub.
  rewrite uint32_t_small by lia. apply int32_t_small. lia.
Qed.

Lemma timeRemaining_formula (s : sys) (t0 : Z) :
  waiting (queuedRead s) = true ->
  issued_at s t0 -> now s - t0 < 2147483648 ->
  timeRemaining s = Z.max 0 (SETTLE_DELAY - (now s - t0)).
Proof.
  intros W Hi Hd. rewrite (timeRemaining_waiting s W). cbv zeta.
  rewrite (elapsed_32 s t0 Hi Hd). destruct Hi as [Ht _].
  unfold SETTLE_DELAY.
  rewrite int32_t_small by lia.
  destruct (Z.ltb_spec (8000 - (now s - t0)) 0); [lia |].
  rewrite uint32_t_small by lia. lia.
Qed.

(** C3.  While a read is pending, [ak8963SensorStartRead] returns false
    and changes nothing: the tracker ([waiting], [len],
    [readStartedAt]) and the log of bus commands are as before. *)
Theorem startRead_while_pending (addr_ reg_ len_ : Z) (s : sys) :
  waiting (queuedRead s) = true ->
  ak8963SensorStartRead addr_ reg_ len_ s = (false, s) /\
  queuedRead (snd (ak8963SensorStartRead addr_ reg_ len_ s))
  = queuedRead s /\
  trace (snd (ak8963SensorStartRead addr_ reg_ len_ s)) = trace s.
Proof.
  intros W. rewrite (StartRead_pending addr_ reg_ len_ s W).
  repeat split.
Qed.

Lemma startRead_while_pending_witness :
  ak8963SensorStartRead AK8963_MAG_I2C_ADDRESS AK8963_MAG_REG_HXL 7 s_early
  = (false, s_early).
Proof.
  apply (startRead_while_pending AK8963_MAG_I2C_ADDRESS AK8963_MAG_REG_HXL
                                 7 s_early).
  reflexivity.
Defined.

(** C5, as stated, fails: 2^31 + 8001 microseconds after the read was
    started the function returns 2147483647, not 0. *)
Lemma timeRemaining_late_counterexample :
  ~ timeRemaining_spec always s_late 0.
Proof.
  intros [_ H].
  destruct H as [_ [H _]]; [reflexivity | split; [| reflexivity] | exact I |].
  - cbn. lia.
  - specialize (H ltac:(cbn; unfold SETTLE_DELAY; lia)).
    vm_compute in H. discriminate H.
Qed.

(** C5, amended.  With no read pending the function returns 0.  With a
    read pending that was started less than 2^31 microseconds ago it
    returns [max 0 (SETTLE_DELAY - (now - issuedAt))] with
    [SETTLE_DELAY = 8000]; this is 0 from [issuedAt + SETTLE_DELAY] on,
    and at a later clock value inside the same range, with no read
    started in between, the value is not larger. *)
Theorem timeRemaining_contract (s : sys) (t0 : Z) :
  timeRemaining_spec within_half_range s t0.
Proof.
  unfold timeRemaining_spec, within_half_range. split.
  - apply timeRemaining_idle.
  - intros W Hi Hd.
    pose proof (timeRemaining_formula s t0 W Hi Hd) as F.
    split; [exact F | split].
    + intros Hs. rewrite F. lia.
    + intros s' Hq Hn Hd'.
      destruct (waiting (queuedRead s')) eqn:W'.
      * assert (Hi' : issued_at s' t0).
        { destruct Hi as [Ht E]. split; [lia | congruence]. }
        rewrite (timeRemaining_formula s' t0 W' Hi' Hd'), F. lia.
      * rewrite (timeRemaining_idle s' W').
        apply timeRemaining_nonneg.
Qed.

Lemma timeRemaining_contract_witness :
  timeRemaining s_early = Z.max 0 (SETTLE_DELAY - (now s_early - 1000)) /\
  timeRemaining (set_now 9000 s_early) = 0.
Proof.
  destruct (timeRemaining_contract s_early 1000) as [_ H].
  destruct H as [F [_ M]].
  - reflexivity.
  - split; [cbn; lia | reflexivity].
  - unfold within_half_range. cbn. lia.
  - split; [exact F |].
    destruct (timeRemaining_contract (set_now 9000 s_early) 1000) as [_ H].
    destruct H as [_ [Z0 _]].
    + reflexivity.
    + split; [cbn; lia | reflexivity].
    + unfold within_half_range. cbn. lia.
    + apply Z0. unfold SETTLE_DELAY. cbn. lia.
Defined.

(** C4, as stated, fails: called 2^31 + 8001 microseconds after the
    read was started, [ak8963SensorCompleteRead] blocks for 2147483647
    microseconds, far more than one settle interval. *)
Lemma completeRead_late_counterexample :
  ~ completeRead_spec always s_late 0 [0].
Proof.
  intros [H _].
  assert (B : timeRemaining s_late <= SETTLE_DELAY).
  { apply H. intros _.
    split; [split; [cbn; lia | reflexivity] | exact I]. }
  vm_compute in B. apply B. reflexivity.
Qed.

(** C4, amended.  In every state [ak8963SensorCompleteRead] blocks for
    exactly the remaining time when that is positive, clears the pending
    flag, reads [len] bytes from the transport into the caller's buffer
    and returns them; provided the pending read, if there is one, was
    started less than 2^31 microseconds ago, the blocking wait is at
    most one settle interval of 8000 microseconds. *)
Theorem completeRead_contract (s : sys) (t0 : Z) (buf : list Z) :
  completeRead_spec within_half_range s t0 buf.
Proof.
  unfold completeRead_spec, within_half_range. cbv zeta.
  rewrite CompleteRead_eq. cbn [fst snd now trace queuedRead waiting].
  split; [| split; [reflexivity | split; [reflexivity |
                                          split; reflexivity]]].
  intros H. destruct (waiting (queuedRead s)) eqn:W.
  - destruct (H eq_refl) as [Hi Hd].
    rewrite (timeRemaining_formula s t0 W Hi Hd).
    destruct Hi as [Ht _]. unfold SETTLE_DELAY. lia.
  - rewrite (timeRemaining_idle s W). unfold SETTLE_DELAY. lia.
Qed.

Lemma completeRead_contract_witness :
  ak8963SensorCompleteRead [0] s_early
  = ((true, [1]),
     mkSys 9000 [EvDelayUs 5000; EvSpiRead MPU_RA_EXT_SENS_DATA_00 1]
           [] [] (mkQueuedRead false 1 1000) CHECK_STATUS
           (mkVec3 F32.one F32.one F32.one)) /\
  timeRemaining s_early <= SETTLE_DELAY /\
  now (snd (ak8963SensorCompleteRead [0] s_late))
  = now s_late + timeRemaining s_late /\
  waiting (queuedRead (snd (ak8963SensorCompleteRead [0] s_late))) = false.
Proof.
  split; [reflexivity |].
  destruct (completeRead_contract s_early 1000 [0]) as [B _].
  destruct (completeRead_contract s_late 0 [0]) as (_ & N & _ & W & _).
  split; [| split; [exact N | exact W]].
  apply B. intros _. split; [split; [cbn; lia | reflexivity] |].
  unfold within_half_range. cbn. lia.
Defined.

End TrackerFacts.

(** ** Bytes and register pairs *)

Module ByteFacts.
Import Spec.

Lemma all_bytes_complete (c : Z) : 0 <= c < 256 -> In c all_bytes.
Proof.
intros H. unfold all_bytes. apply in_map_iff. exists (Z.to_nat c).
split; [lia |]. apply in_seq. lia.
Qed.

(** A boolean property checked on the 256 bytes holds of every byte. *)
Lemma byte_enum (P : Z -> bool) :
forallb P all_bytes = true -> forall c, 0 <= c < 256 -> P c = true.
Proof.
intros H c Hc. rewrite forallb_forall in H.
apply H, all_bytes_complete, Hc.
Qed.

Lemma byte_at_range (buf : list Z) (i : nat) : 0 <= byte_at buf i < 256.
Proof. unfold byte_at, uint8_t, uint. apply Z.mod_pos_bound. reflexivity. Qed.

Lemma int16_t_small (z : Z) : - 32768 <= z < 32768 -> int16_t z = z.
Proof.
intros H. unfold int16_t, sint.
change (2 ^ 16) with 65536. change (2 ^ (16 - 1)) with 32768.
destruct (Z_lt_le_dec z 0) as [Hn | Hp].
- assert (E : z mod 65536 = z + 65536).
  { symmetry. apply (Z.mod_unique z 65536 (-1)); lia. }
  rewrite E. destruct (Z.ltb_spec (z + 65536) 32768); lia.
- rewrite Z.mod_small by lia.
  destruct (Z.ltb_spec z 32768); lia.
Qed.

(** The cast of [hi << 8 | lo] to [int16_t] is the little-endian signed
  value of the pair. *)
Lemma pair_le_int16 (lo hi : Z) :
0 <= lo < 256 -> 0 <= hi < 256 ->
int16_t (Z.lor (Z.shiftl hi 8) lo) = Spec.le_int16 lo hi.
Proof.
intros Hlo Hhi.
apply Z.eqb_eq.
revert lo Hlo.
apply (byte_enum
         (fun lo => int16_t (Z.lor (Z.shiftl hi 8) lo)
                    =? Spec.le_int16 lo hi)).
revert hi Hhi.
apply (byte_enum
         (fun hi =>
            forallb (fun lo => int16_t (Z.lor (Z.shiftl hi 8) lo)
                               =? Spec.le_int16 lo hi) all_bytes)).
vm_compute. reflexivity.
Qed.

Lemma le_int16_range (lo hi : Z) :
0 <= lo < 256 -> 0 <= hi < 256 -> - 32768 <= Spec.le_int16 lo hi < 32768.
Proof.
intros Hlo Hhi. unfold Spec.le_int16. cbv zeta.
destruct (Z.ltb_spec (lo + 256 * hi) 32768); lia.
Qed.

End ByteFacts.

(** ** Single-precision arithmetic: exact cases *)

Module F32Facts.
Import F32 Spec ByteFacts.

Lemma strip_spec (p : positive) :
  0 <= snd (strip p) /\
  Zpos p = Zpos (fst (strip p)) * 2 ^ snd (strip p).
Proof.
  induction p as [p IH | p IH |]; cbn [strip].
  - cbn [fst snd]. split; [lia |]. rewrite Z.pow_0_r. lia.
  - destruct (strip p) as [m k]. cbn [fst snd] in *.
    destruct IH as [Hk E]. split; [lia |].
    rewrite Z.pow_add_r by lia. rewrite Pos2Z.inj_xO, E.
    rewrite Z.pow_1_r. ring.
  - cbn [fst snd]. split; [lia | reflexivity].
Qed.

Lemma canon_spec (m e : Z) :
  exists j, 0 <= j /\ (m = 0 \/ expo (canon m e) = e + j) /\
            mant (canon m e) * 2 ^ j = m.
Proof.
  destruct m as [| p | p]; cbn [canon].
  - exists 0. cbn. split; [lia | split; [left; reflexivity | reflexivity]].
  - destruct (strip_spec p) as [Hk E]. destruct (strip p) as [q k].
    cbn [fst snd mant expo] in *. exists k.
    split; [exact Hk | split; [right; reflexivity | symmetry; exact E]].
  - destruct (strip_spec p) as [Hk E]. destruct (strip p) as [q k].
    cbn [fst snd mant expo] in *. exists k.
    split; [exact Hk | split; [right; reflexivity |]].
    rewrite <- !Pos2Z.opp_pos, E. ring.
Qed.

Lemma canon_denotes (m e k : Z) :
  0 <= k -> 0 <= e + k -> denotes (canon m e) (m * 2 ^ (e + k)) k.
Proof.
  intros Hk Hek. destruct (canon_spec m e) as (j & Hj & He & Hm).
  unfold denotes. destruct He as [-> | He].
  - cbn. split; [lia | split; [lia | reflexivity]].
  - rewrite He. split; [lia | split; [lia |]].
    rewrite <- Hm at 2.
    replace (e + j + k) with (j + (e + k)) by lia.
    rewrite Z.pow_add_r by lia. ring.
Qed.

Lemma round_small (m e : Z) :
  Z.abs m < 16777216 -> round m e = canon m e.
Proof.
  intros H. unfold round. cbv zeta.
  assert (L : Z.log2 (Z.abs m) - 23 <= 0).
  { destruct (Z.eq_dec (Z.abs m) 0) as [-> | N]; [cbn; lia |].
    assert (Z.log2 (Z.abs m) < 24); [| lia].
    apply Z.log2_lt_pow2; lia. }
  destruct (Z.leb_spec (Z.log2 (Z.abs m) - 23) 0); [reflexivity | lia].
Qed.

Lemma trunc_denotes (x : float) (n k : Z) :
  denotes x n k -> trunc x = Z.quot n (2 ^ k).
Proof.
  intros (Hk & Hek & <-). unfold trunc.
  assert (P : 0 < 2 ^ k) by (apply Z.pow_pos_nonneg; lia).
  destruct (Z.leb_spec 0 (expo x)) as [He | He].
  - rewrite Z.pow_add_r by lia. rewrite Z.mul_assoc.
    rewrite Z.quot_mul by lia. reflexivity.
  - replace k with (- expo x + (expo x + k)) at 2 by lia.
    rewrite (Z.pow_add_r 2 (- expo x) (expo x + k)) by lia.
    assert (0 < 2 ^ (expo x + k)) by (apply Z.pow_pos_nonneg; lia).
    assert (0 < 2 ^ (- expo x)) by (apply Z.pow_pos_nonneg; lia).
    rewrite Z.quot_mul_cancel_r by lia. reflexivity.
Qed.

(** An integer below 2^24 in magnitude converts exactly. *)
Lemma of_int_denotes (i : Z) :
  Z.abs i < 16777216 -> denotes (of_int i) i 0.
Proof.
  intros H. unfold of_int. rewrite (round_small i 0 H).
  replace i with (i * 2 ^ (0 + 0)) at 2 by (cbn; lia).
  apply canon_denotes; lia.
Qed.

(** A product whose exact value needs fewer than 24 bits is exact. *)
Lemma mul_denotes (x y : float) (a b k : Z) :
  denotes x a 0 -> denotes y b k -> Z.abs (a * b) < 16777216 ->
  denotes (mul x y) (a * b) k.
Proof.
  intros (_ & Hx & Ex) (Hk & Hy & Ey) H. rewrite Z.add_0_r in *.
  assert (Px : 0 < 2 ^ expo x) by (apply Z.pow_pos_nonneg; lia).
  assert (Py : 0 < 2 ^ (expo y + k)) by (apply Z.pow_pos_nonneg; lia).
  assert (E : mant x * mant y * 2 ^ (expo x + expo y + k) = a * b).
  { replace (expo x + expo y + k) with (expo x + (expo y + k)) by lia.
    rewrite Z.pow_add_r by lia. rewrite <- Ex, <- Ey. ring. }
  assert (S : Z.abs (mant x * mant y) <= Z.abs (a * b)).
  { rewrite <- E. rewrite (Z.abs_mul (mant x * mant y)).
    assert (1 <= Z.abs (2 ^ (expo x + expo y + k))).
    { assert (0 < 2 ^ (expo x + expo y + k))
        by (apply Z.pow_pos_nonneg; lia). lia. }
    pose proof (Z.abs_nonneg (mant x * mant y)). nia. }
  unfold mul. rewrite round_small by lia.
  rewrite <- E. apply canon_denotes; lia.
Qed.

(** The gains [ak8963Init] can compute: [30 * (trim + 128) / 256]. *)
Lemma gain_of_denotes (c : Z) :
  0 <= c < 256 -> denotes (gain_of c) (30 * (int8_t c + 128)) 8.
Proof.
  intros Hc. unfold denotes. split; [lia |].
  assert (H : (0 <=? expo (gain_of c) + 8)
              && (mant (gain_of c) * 2 ^ (expo (gain_of c) + 8)
                  =? 30 * (int8_t c + 128)) = true).
  { revert c Hc. apply byte_enum. vm_compute. reflexivity. }
  apply andb_true_iff in H. destruct H as [H1 H2]. split; lia.
Qed.

Lemma gain_of_value (c : Z) :
  0 <= c < 256 -> Qeq (value (gain_of c)) (Spec.gain_formula (int8_t c)).
Proof.
  intros Hc. apply Qeq_bool_iff. revert c Hc.
  apply (byte_enum (fun c => Qeq_bool (value (gain_of c))
                                      (Spec.gain_formula (int8_t c)))).
  vm_compute. reflexivity.
Qed.

Lemma int8_t_range (c : Z) : 0 <= c < 256 -> - 128 <= int8_t c < 128.
Proof.
  intros Hc. unfold int8_t, sint.
  change (2 ^ 8) with 256. change (2 ^ (8 - 1)) with 128.
  rewrite Z.mod_small by lia. destruct (Z.ltb_spec c 128); lia.
Qed.

(** When the exact product fits an [int16_t], the stored value is the
    exact product with its fraction discarded. *)
Lemma product_exact (raw c : Z) :
  - 32768 <= raw < 32768 -> 0 <= c < 256 ->
  let p := - raw * (30 * (int8_t c + 128)) in
  - 32768 <= Z.quot p 256 <= 32767 ->
  to_int16 (mul (of_int (- raw)) (gain_of c)) = Z.quot p 256.
Proof.
  intros Hr Hc p Hp.
  assert (Hs : Z.abs p < 16777216).
  { pose proof (Z.quot_rem' p 256) as E.
    pose proof (Z.rem_bound_abs p 256 ltac:(lia)) as B.
    change (Z.abs 256) with 256 in B. lia. }
  assert (D : denotes (mul (of_int (- raw)) (gain_of c)) p 8).
  { apply mul_denotes.
    - apply of_int_denotes. lia.
    - apply gain_of_denotes, Hc.
    - exact Hs. }
  unfold to_int16. rewrite (trunc_denotes _ _ _ D).
  change (2 ^ 8) with 256. apply int16_t_small. lia.
Qed.

End F32Facts.

(** ** The acquisition state machine *)

Module ReadFacts.
Import Spi Spec Stated TrackerFacts ByteFacts.
Local Open Scope m_scope.

Lemma CompleteRead_ready (buf : list Z) (s : sys) :
  timeRemaining s = 0 ->
  ak8963SensorCompleteRead buf s
  = ((true, store buf (len (queuedRead s)) (snd (answer s))),
     mkSys (now s)
           (trace s ++
              [EvSpiRead MPU_RA_EXT_SENS_DATA_00 (len (queuedRead s))])
           (tl (rx s)) (wx s)
           (mkQueuedRead false (len (queuedRead s))
                         (readStartedAt (queuedRead s)))
           (state s) (magGain s)).
Proof.
  intros H. rewrite CompleteRead_eq, H. cbn [Z.ltb Z.compare app].
  rewrite Z.add_0_r. reflexivity.
Qed.

Lemma SensorWrite_eq (addr_ reg_ data : Z) (s : sys) :
  SensorWrite addr_ reg_ data s
  = (true, mkSys (now s + 40) (trace s ++ spi_write_events addr_ reg_ data)
                 (rx s) (wx s) (queuedRead s) (state s) (magGain s)).
Proof.
  unfold SensorWrite.
  repeat (erewrite run_known by apply spiWriteRegisterDelay_eq; fields).
  mrun. rewrite <- !app_assoc. cbn [app].
  replace (now s + 10 + 10 + 10 + 10) with (now s + 40) by lia.
  reflexivity.
Qed.

(** *** One pass through the switch, arm by arm *)

Lemma switch_check (retry : bool) (buf : list Z) (s : sys) :
  state s = CHECK_STATUS ->
  ak8963Read_switch retry buf s
  = (Return false,
     if waiting (queuedRead s)
     then set_state WAITING_FOR_STATUS s
     else mkSys (now s + 30)
                (trace s ++ spi_start_events AK8963_MAG_I2C_ADDRESS
                                             AK8963_MAG_REG_STATUS1 1)
                (rx s) (wx s)
                (mkQueuedRead true 1 (uint32_t (now s + 30)))
                WAITING_FOR_STATUS (magGain s)).
Proof.
  intros St. unfold ak8963Read_switch. rewrite run_get, St.
  destruct (waiting (queuedRead s)) eqn:W.
  - erewrite run_known by (apply StartRead_pending; exact W).
    mrun. rewrite St. reflexivity.
  - erewrite run_known by (apply StartRead_idle; exact W).
    mrun. rewrite St. reflexivity.
Qed.

Lemma switch_not_ready (retry : bool) (buf : list Z) (s : sys) :
  state s <> CHECK_STATUS -> timeRemaining s <> 0 ->
  ak8963Read_switch retry buf s = (Return false, s).
Proof.
  intros St Hr. unfold ak8963Read_switch. rewrite run_get.
  destruct (state s); [congruence | |];
    erewrite run_known by apply TimeRemaining_eq;
    destruct (Z.eqb_spec (timeRemaining s) 0); try congruence;
    reflexivity.
Qed.

Lemma switch_status_fail (retry : bool) (buf : list Z) (s : sys) :
  state s = WAITING_FOR_STATUS -> timeRemaining s = 0 ->
  let b := store buf (len (queuedRead s)) (snd (answer s)) in
  Z.land (byte_at b 0) STATUS1_DATA_READY = 0 ->
  ak8963Read_switch retry buf s
  = ((if retry then Restart false b else Return false),
     mkSys (now s)
           (trace s ++
              [EvSpiRead MPU_RA_EXT_SENS_DATA_00 (len (queuedRead s))])
           (tl (rx s)) (wx s)
           (mkQueuedRead false (len (queuedRead s))
                         (readStartedAt (queuedRead s)))
           CHECK_STATUS (magGain s)).
Proof.
  intros St Hr b Hb. unfold ak8963Read_switch. rewrite run_get, St.
  erewrite run_known by apply TimeRemaining_eq.
  rewrite Hr. cbn [Z.eqb negb].
  erewrite run_known by (apply CompleteRead_ready; exact Hr).
  cbn [fst snd negb orb]. fold b. rewrite Hb. cbn [Z.eqb].
  mrun. destruct retry; reflexivity.
Qed.

Lemma switch_status_ok (retry : bool) (buf : list Z) (s : sys) :
  state s = WAITING_FOR_STATUS -> timeRemaining s = 0 ->
  let b := store buf (len (queuedRead s)) (snd (answer s)) in
  Z.land (byte_at b 0) STATUS1_DATA_READY <> 0 ->
  ak8963Read_switch retry buf s
  = (Return false,
     mkSys (now s + 30)
           (trace s ++
              [EvSpiRead MPU_RA_EXT_SENS_DATA_00 (len (queuedRead s))] ++
              spi_start_events AK8963_MAG_I2C_ADDRESS AK8963_MAG_REG_HXL 7)
           (tl (rx s)) (wx s)
           (mkQueuedRead true 7 (uint32_t (now s + 30)))
           WAITING_FOR_DATA (magGain s)).
Proof.
  intros St Hr b Hb. unfold ak8963Read_switch. rewrite run_get, St.
  erewrite run_known by apply TimeRemaining_eq.
  rewrite Hr. cbn [Z.eqb negb].
  erewrite run_known by (apply CompleteRead_ready; exact Hr).
  cbn [fst snd negb orb]. fold b.
  destruct (Z.eqb_spec (Z.land (byte_at b 0) STATUS1_DATA_READY) 0)
    as [E | _]; [congruence |].
  erewrite run_known by (apply StartRead_idle; reflexivity).
  mrun. rewrite St, <- app_assoc. reflexivity.
Qed.

Lemma switch_data (retry : bool) (buf : list Z) (s : sys) :
  state s = WAITING_FOR_DATA -> timeRemaining s = 0 ->
  ak8963Read_switch retry buf s
  = (Break true (store buf (len (queuedRead s)) (snd (answer s))),
     mkSys (now s)
           (trace s ++
              [EvSpiRead MPU_RA_EXT_SENS_DATA_00 (len (queuedRead s))])
           (tl (rx s)) (wx s)
           (mkQueuedRead false (len (queuedRead s))
                         (readStartedAt (queuedRead s)))
           WAITING_FOR_DATA (magGain s)).
Proof.
  intros St Hr. unfold ak8963Read_switch. rewrite run_get, St.
  erewrite run_known by apply TimeRemaining_eq.
  rewrite Hr. cbn [Z.eqb negb].
  erewrite run_known by (apply CompleteRead_ready; exact Hr).
  mrun. rewrite St. reflexivity.
Qed.

(** *** The end of the function *)

Lemma tail_fault (reset : M unit) (ack : bool) (buf : list Z)
      (data : vec3 Z) (s : sys) :
  ack = false \/ ~ status2_clean (byte_at buf 6) ->
  ak8963Read_tail reset ack buf data s = ((false, data), s).
Proof.
  intros H. unfold ak8963Read_tail, status2_clean in *.
  destruct ack; cbn [negb orb]; [| reflexivity].
  destruct (test (byte_at buf 6) STATUS2_DATA_ERROR); [reflexivity |].
  destruct (test (byte_at buf 6) STATUS2_MAG_SENSOR_OVERFLOW);
    [reflexivity |].
  exfalso. destruct H as [H | H]; [discriminate H | apply H; split;
                                                    reflexivity].
Qed.

Lemma axis_value_sample (buf : list Z) (i j : nat) (g : F32.float) :
  axis_value (byte_at buf i) (byte_at buf j) g
  = F32.to_int16
      (F32.mul (F32.of_int (- le_int16 (byte_at buf i) (byte_at buf j))) g).
Proof.
  unfold axis_value.
  rewrite pair_le_int16 by apply byte_at_range. reflexivity.
Qed.

Lemma tail_clean (buf : list Z) (data : vec3 Z) (s : sys) :
  status2_clean (byte_at buf 6) ->
  ak8963Read_tail (modify (set_state CHECK_STATUS)) true buf data s
  = ((true, sample buf (magGain s)),
     mkSys (now s + 40) (trace s ++ rearm_events) (rx s) (wx s)
           (queuedRead s) CHECK_STATUS (magGain s)).
Proof.
  intros [H1 H2]. unfold ak8963Read_tail. rewrite H1, H2.
  cbn [negb orb]. mrun.
  change (@ak8963SensorWrite bus) with SensorWrite.
  erewrite run_known by apply SensorWrite_eq.
  mrun. rewrite !axis_value_sample. reflexivity.
Qed.

(** *** A whole call *)

Lemma Read_data_fault (fuel : nat) (data : vec3 Z) (buf : list Z)
      (s : sys) :
  state s = WAITING_FOR_DATA -> timeRemaining s = 0 ->
  ~ status2_clean
      (byte_at (store buf (len (queuedRead s)) (snd (answer s))) 6) ->
  ak8963Read (S fuel) data buf s
  = (Some (mkResult false data [WAITING_FOR_DATA]),
     mkSys (now s)
           (trace s ++
              [EvSpiRead MPU_RA_EXT_SENS_DATA_00 (len (queuedRead s))])
           (tl (rx s)) (wx s)
           (mkQueuedRead false (len (queuedRead s))
                         (readStartedAt (queuedRead s)))
           WAITING_FOR_DATA (magGain s)).
Proof.
  intros St Hr Hf. unfold ak8963Read. cbn [ak8963Read_restart].
  rewrite run_get, St.
  erewrite run_known by (apply switch_data; assumption).
  cbv beta iota; cbn [app].
  erewrite run_known by (apply tail_fault; right; exact Hf).
  reflexivity.
Qed.

Lemma Read_data_clean (fuel : nat) (data : vec3 Z) (buf : list Z)
      (s : sys) :
  state s = WAITING_FOR_DATA -> timeRemaining s = 0 ->
  let b := store buf (len (queuedRead s)) (snd (answer s)) in
  status2_clean (byte_at b 6) ->
  ak8963Read (S fuel) data buf s
  = (Some (mkResult true (sample b (magGain s)) [WAITING_FOR_DATA]),
     mkSys (now s + 40)
           (trace s ++
              [EvSpiRead MPU_RA_EXT_SENS_DATA_00 (len (queuedRead s))] ++
              rearm_events)
           (tl (rx s)) (wx s)
           (mkQueuedRead false (len (queuedRead s))
                         (readStartedAt (queuedRead s)))
           CHECK_STATUS (magGain s)).
Proof.
  intros St Hr b Hc. unfold ak8963Read. cbn [ak8963Read_restart].
  rewrite run_get, St.
  erewrite run_known by (apply switch_data; assumption).
  cbv beta iota; cbn [app].
  erewrite run_known by (apply tail_clean; exact Hc).
  fields. rewrite <- app_assoc. reflexivity.
Qed.

Lemma Read_status_ok (fuel : nat) (data : vec3 Z) (buf : list Z)
      (s : sys) :
  state s = WAITING_FOR_STATUS -> timeRemaining s = 0 ->
  Z.land (byte_at (store buf (len (queuedRead s)) (snd (answer s))) 0)
         STATUS1_DATA_READY <> 0 ->
  ak8963Read (S fuel) data buf s
  = (Some (mkResult false data [WAITING_FOR_STATUS]),
     mkSys (now s + 30)
           (trace s ++
              [EvSpiRead MPU_RA_EXT_SENS_DATA_00 (len (queuedRead s))] ++
              spi_start_events AK8963_MAG_I2C_ADDRESS AK8963_MAG_REG_HXL 7)
           (tl (rx s)) (wx s)
           (mkQueuedRead true 7 (uint32_t (now s + 30)))
           WAITING_FOR_DATA (magGain s)).
Proof.
  intros St Hr Hb. unfold ak8963Read. cbn [ak8963Read_restart].
  rewrite run_get, St.
  erewrite run_known by (apply switch_status_ok; assumption).
  cbv beta iota; cbn [app].
  reflexivity.
Qed.

Lemma Read_status_fail (fuel : nat) (data : vec3 Z) (buf : list Z)
      (s : sys) :
  state s = WAITING_FOR_STATUS -> timeRemaining s = 0 ->
  Z.land (byte_at (store buf (len (queuedRead s)) (snd (answer s))) 0)
         STATUS1_DATA_READY = 0 ->
  ak8963Read (S (S fuel)) data buf s
  = (Some (mkResult false data [WAITING_FOR_STATUS; CHECK_STATUS]),
     mkSys (now s + 30)
           (trace s ++
              [EvSpiRead MPU_RA_EXT_SENS_DATA_00 (len (queuedRead s))] ++
              spi_start_events AK8963_MAG_I2C_ADDRESS
                               AK8963_MAG_REG_STATUS1 1)
           (tl (rx s)) (wx s)
           (mkQueuedRead true 1 (uint32_t (now s + 30)))
           WAITING_FOR_STATUS (magGain s)).
Proof.
  intros St Hr Hb. unfold ak8963Read. cbn [ak8963Read_restart].
  rewrite run_get, St.
  erewrite run_known by (apply switch_status_fail; assumption).
  cbv beta iota; cbn [app].
  rewrite run_get. fields.
  erewrite run_known by (apply switch_check; reflexivity).
  cbv beta iota; cbn [app].
  fields. rewrite <- app_assoc. reflexivity.
Qed.


Lemma Read_check (fuel : nat) (data : vec3 Z) (buf : list Z) (s : sys) :
  state s = CHECK_STATUS ->
  ak8963Read (S fuel) data buf s
  = (Some (mkResult false data [CHECK_STATUS]),
     if waiting (queuedRead s)
     then set_state WAITING_FOR_STATUS s
     else mkSys (now s + 30)
                (trace s ++ spi_start_events AK8963_MAG_I2C_ADDRESS
                                             AK8963_MAG_REG_STATUS1 1)
                (rx s) (wx s)
                (mkQueuedRead true 1 (uint32_t (now s + 30)))
                WAITING_FOR_STATUS (magGain s)).
Proof.
  intros St. unfold ak8963Read. cbn [ak8963Read_restart].
  rewrite run_get, St.
  erewrite run_known by (apply switch_check; exact St).
  reflexivity.
Qed.

Lemma Read_not_ready (fuel : nat) (data : vec3 Z) (buf : list Z)
      (s : sys) :
  state s <> CHECK_STATUS -> timeRemaining s <> 0 ->
  ak8963Read (S fuel) data buf s
  = (Some (mkResult false data [state s]), s).
Proof.
  intros St Hr. unfold ak8963Read. cbn [ak8963Read_restart].
  rewrite run_get.
  erewrite run_known by (apply switch_not_ready; assumption).
  reflexivity.
Qed.

Lemma status2_clean_dec (x : Z) : status2_clean x \/ ~ status2_clean x.
Proof.
  unfold status2_clean.
  destruct (test x STATUS2_DATA_ERROR);
    destruct (test x STATUS2_MAG_SENSOR_OVERFLOW);
    try (left; split; reflexivity);
    right; intros [H1 H2]; discriminate.
Qed.





(** *** Buffers *)

Lemma uint8_t_idem (x : Z) : uint8_t (uint8_t x) = uint8_t x.
Proof. unfold uint8_t, uint. apply Z.mod_mod. discriminate. Qed.

Lemma byte_at_map (l : list Z) (i : nat) :
  byte_at (map uint8_t l) i = byte_at l i.
Proof.
  unfold byte_at. change 0 with (uint8_t 0) at 1.
  rewrite map_nth. apply uint8_t_idem.
Qed.

Lemma sample_map (l : list Z) (g : vec3 F32.float) :
  sample (map uint8_t l) g = sample l g.
Proof. unfold sample. rewrite !byte_at_map. reflexivity. Qed.

(** A transfer that fills the whole buffer. *)
Lemma store_all (buf data : list Z) :
  length buf = length data ->
  store buf (Z.of_nat (length data)) data = map uint8_t data.
Proof.
  intros L. unfold store. rewrite Nat2Z.id.
  assert (F : firstn (length data) (map uint8_t data) = map uint8_t data).
  { apply firstn_all2. rewrite length_map. lia. }
  rewrite F, length_map, <- L, skipn_all, app_nil_r.
  apply firstn_all2. rewrite length_map. lia.
Qed.

(** The first byte after a transfer that delivered at least one. *)
Lemma store_first (buf data : list Z) (n x : Z) :
  buf <> [] -> 0 < n ->
  byte_at (store buf n (x :: data)) 0 = uint8_t x.
Proof.
  intros Hb Hn. unfold store, byte_at.
  destruct (Z.to_nat n) as [| k] eqn:E; [lia |].
  destruct buf as [| b buf]; [congruence |].
  cbn [map firstn length app nth]. apply uint8_t_idem.
Qed.

(** C2, evaluated on the code.  The claim asks that a poll completing the
    7-byte read with an error bit in status2 returns no new data, resets
    the state to CHECK_STATUS and issues exactly one re-arm command.  The
    code returns no new data, but at its early [return false] it leaves
    the state at WAITING_FOR_DATA and issues no re-arm command: the only
    bus command of the call is the buffer read. *)
Theorem read_fault_skips_rearm :
  ak8963Read 2 zero3 buf7 s_fault
  = (Some (mkResult false zero3 [WAITING_FOR_DATA]),
     mkSys 11000 [EvSpiRead MPU_RA_EXT_SENS_DATA_00 7] [] []
           (mkQueuedRead false 7 1000) WAITING_FOR_DATA
           (mkVec3 F32.one F32.one F32.one)) /\
  state (snd (ak8963Read 2 zero3 buf7 s_fault)) <> CHECK_STATUS /\
  count_rearm (trace (snd (ak8963Read 2 zero3 buf7 s_fault))) = 0%nat.
Proof.
  split; [reflexivity | split; [discriminate | reflexivity]].
Qed.

(** The same for every state: a fault in status2 leaves the machine in
    WAITING_FOR_DATA with no write on the bus. *)
Lemma read_fault_in_general (data : vec3 Z) (buf : list Z) (s : sys) :
  state s = WAITING_FOR_DATA -> timeRemaining s = 0 ->
  ~ status2_clean
      (byte_at (store buf (len (queuedRead s)) (snd (answer s))) 6) ->
  let out := ak8963Read 2 data buf s in
  fst out = Some (mkResult false data [WAITING_FOR_DATA]) /\
  state (snd out) = WAITING_FOR_DATA /\
  count_rearm (trace (snd out)) = count_rearm (trace s).
Proof.
  intros St Hr Hf. cbv zeta.
  rewrite (Read_data_fault 1 data buf s St Hr Hf). cbn [fst snd state trace].
  repeat split. unfold count_rearm. rewrite filter_app. cbn [filter is_rearm].
  rewrite app_nil_r. reflexivity.
Qed.


(** The direct I2C build stores the same values; what it returns is
    the acknowledgement of the re-arm write. *)
Lemma i2c_read_values (data : vec3 Z) (buf : list Z) (s : sys)
      (status : Z) (bytes : list Z) (rest : list (bool * list Z)) :
  length buf = 7%nat ->
  rx s = (true, [status]) :: (true, bytes) :: rest ->
  length bytes = 7%nat ->
  Z.land (uint8_t status) STATUS1_DATA_READY <> 0 ->
  status2_clean (byte_at bytes 6) ->
  fst (I2c.ak8963Read data buf s)
  = (hd false (wx s), sample bytes (magGain s)).
Proof.
  intros Lb Hrx Ly Hs [H1 H2]. unfold I2c.ak8963Read.
  change (@ak8963SensorRead I2c.bus) with I2c.SensorRead.
  unfold I2c.SensorRead. mrun.
  erewrite run_known by apply next_rx_eq. mrun.
  unfold answer. rewrite Hrx. cbn [rx hd tl fst snd negb orb].
  rewrite store_first by (try lia; destruct buf; discriminate).
  destruct (Z.eqb_spec (Z.land (uint8_t status) STATUS1_DATA_READY) 0)
    as [E | _]; [congruence |].
  mrun. erewrite run_known by apply next_rx_eq. mrun.
  unfold answer. cbn [rx hd tl fst snd].
  assert (A : store (store buf 1 [status]) 7 bytes = map uint8_t bytes).
  { change 7 with (Z.of_nat 7). rewrite <- Ly. apply store_all.
    unfold store at 1. rewrite length_firstn, length_app, length_skipn.
    rewrite length_firstn. cbn [map length]. lia. }
  rewrite A. unfold ak8963Read_tail.
  rewrite byte_at_map, H1, H2. cbn [negb orb]. mrun.
  change (@ak8963SensorWrite I2c.bus) with I2c.SensorWrite.
  unfold I2c.SensorWrite. mrun.
  rewrite !axis_value_sample, !byte_at_map.
  unfold next_wx. cbn [wx]. destruct (wx s); reflexivity.
Qed.

End ReadFacts.

(** ** The sample, in both builds *)

Module SampleFacts.
Import Spi Spec Runs Stated TrackerFacts ByteFacts ReadFacts.
Local Open Scope m_scope.

Lemma int16_t_wrap16 (z : Z) : int16_t z = wrap16 z.
Proof.
  unfold int16_t, sint, wrap16.
  change (2 ^ 16) with 65536. change (2 ^ (16 - 1)) with 32768.
  destruct (Z.ltb_spec (z mod 65536) 32768);
    Z.div_mod_to_equations; lia.
Qed.

Lemma pos_pow_1_l (p : positive) : (1 ^ p)%positive = 1%positive.
Proof.
  apply Pos2Z.inj. rewrite Pos2Z.inj_pow. apply Z.pow_1_l. lia.
Qed.

(** The conversion of a float to an integer discards the fraction of the
    rational the float denotes. *)
Lemma trunc_value (x : F32.float) : F32.trunc x = trunc_Q (F32.value x).
Proof.
  destruct x as [m e]. unfold F32.trunc, F32.value, trunc_Q.
  cbn [F32.mant F32.expo].
  destruct e as [| p | p].
  - change (0 <=? 0) with true. cbv iota.
    change ((2 # 1) ^ 0)%Q with 1%Q.
    cbn [Qmult inject_Z Qnum Qden Pos.mul]. rewrite Z.quot_1_r.
    change (2 ^ 0) with 1. reflexivity.
  - change (0 <=? Z.pos p) with true. cbv iota.
    change ((2 # 1) ^ Z.pos p)%Q with (Qpower_positive (2 # 1) p).
    rewrite Qpower_decomp_positive.
    cbn [Qmult inject_Z Qnum Qden]. rewrite Pos.mul_1_l, pos_pow_1_l.
    rewrite Z.quot_1_r. reflexivity.
  - change (0 <=? Z.neg p) with false. cbv iota.
    change (- Z.neg p) with (Z.pos p).
    change ((2 # 1) ^ Z.neg p)%Q with (/ Qpower_positive (2 # 1) p)%Q.
    rewrite Qpower_decomp_positive, pos_pow_1_l.
    change 2 with (Z.pos 2) at 1 2. rewrite <- Pos2Z.inj_pow.
    cbn [Qinv Qnum Qden Qmult inject_Z].
    rewrite Pos.mul_1_l, Z.mul_1_r. reflexivity.
Qed.

Lemma to_int16_stored (x : F32.float) :
  F32.to_int16 x = wrap16 (trunc_Q (F32.value x)).
Proof. unfold F32.to_int16. rewrite int16_t_wrap16, trunc_value.
       reflexivity. Qed.

Lemma wrap16_range (z : Z) : - 32768 <= wrap16 z <= 32767.
Proof. unfold wrap16. Z.div_mod_to_equations. lia. Qed.

Lemma sample_stored3 (buf : list Z) (g : vec3 F32.float) :
  sample buf g = stored3 buf g.
Proof.
  unfold sample, stored3, stored. rewrite !to_int16_stored. reflexivity.
Qed.

Lemma stored3_fits (buf : list Z) (g : vec3 F32.float) :
  fits_int16 (stored3 buf g).
Proof.
  unfold fits_int16, stored3, stored. cbn [vX vY vZ].
  split; [| split]; apply wrap16_range.
Qed.

(** C1, as stated, fails in the direct I2C build: with a ready status,
    acknowledged reads and a clean status2 the sample is stored, but the
    call returns the acknowledgement of the re-arm write, here false. *)
Lemma read_i2c_counterexample :
  ~ i2c_read_claim zero3 buf7 s_i2c 0x01
                   [0x10; 0; 0x20; 0; 0x30; 0; 0x00] [].
Proof.
  intros H.
  assert (E : fst (I2c.ak8963Read zero3 buf7 s_i2c)
              = (true, stored3 [0x10; 0; 0x20; 0; 0x30; 0; 0x00]
                               (magGain s_i2c))).
  { apply H; try reflexivity.
    - discriminate.
    - split; reflexivity. }
  rewrite (i2c_read_values zero3 buf7 s_i2c 0x01
                           [0x10; 0; 0x20; 0; 0x30; 0; 0x00] []) in E;
    try reflexivity.
  - discriminate E.
  - discriminate.
  - split; reflexivity.
Qed.

(** C1, amended.  For every 7-byte raw buffer with the DATA_READY bit set
    in the status byte and no error or overflow bit in status2,
    [ak8963Read] stores into [magData], for each axis, the negated
    little-endian signed 16-bit value of the axis's register pair
    multiplied by the axis's gain, as a signed 16-bit integer.  In the
    SPI build (a poll in WAITING_FOR_STATUS that finds DATA_READY, then
    the poll that completes the 7-byte read) the call returns that new
    data is available, whatever the transport acknowledged, and re-arms
    the sensor.  In the I2C build, with both reads acknowledged, the call
    returns the acknowledgement of the re-arm write.  For a gain
    computed by [ak8963Init] and a product that fits 16 bits the stored
    value is the exact product with its fraction discarded. *)
Theorem read_stores_scaled_sample :
  (forall (data : vec3 Z) (buf1 buf2 : list Z) (s : sys) (a1 a2 : bool)
          (status : Z) (bytes : list Z) (rest : list (bool * list Z)),
      state s = WAITING_FOR_STATUS ->
      timeRemaining s = 0 ->
      len (queuedRead s) = 1 ->
      length buf1 = 7%nat -> length buf2 = 7%nat ->
      rx s = (a1, [status]) :: (a2, bytes) :: rest ->
      length bytes = 7%nat ->
      Z.land (uint8_t status) STATUS1_DATA_READY <> 0 ->
      status2_clean (byte_at bytes 6) ->
      exists s1,
        ak8963Read 2 data buf1 s
        = (Some (mkResult false data [WAITING_FOR_STATUS]), s1) /\
        state s1 = WAITING_FOR_DATA /\
        forall t2,
          timeRemaining (set_now t2 s1) = 0 ->
          exists s2,
            ak8963Read 2 data buf2 (set_now t2 s1)
            = (Some (mkResult true (stored3 bytes (magGain s))
                              [WAITING_FOR_DATA]), s2) /\
            state s2 = CHECK_STATUS /\
            trace s2 = trace s1
                       ++ [EvSpiRead MPU_RA_EXT_SENS_DATA_00 7]
                       ++ rearm_events) /\
  (forall (data : vec3 Z) (buf : list Z) (s : sys) (status : Z)
          (bytes : list Z) (rest : list (bool * list Z)),
      length buf = 7%nat ->
      rx s = (true, [status]) :: (true, bytes) :: rest ->
      length bytes = 7%nat ->
      Z.land (uint8_t status) STATUS1_DATA_READY <> 0 ->
      status2_clean (byte_at bytes 6) ->
      fst (I2c.ak8963Read data buf s)
      = (hd false (wx s), stored3 bytes (magGain s))) /\
  (forall (bytes : list Z) (g : vec3 F32.float),
      fits_int16 (stored3 bytes g)) /\
  (forall lo hi c : Z,
      is_byte lo -> is_byte hi -> is_byte c ->
      let p := - le_int16 lo hi * (30 * (int8_t c + 128)) in
      - 32768 <= Z.quot p 256 <= 32767 ->
      stored lo hi (gain_of c) = Z.quot p 256).
Proof.
  split; [| split; [| split]].
  - intros data buf1 buf2 s a1 a2 status bytes rest
           St Hr Hl L1 L2 Hrx Lb Hs Hc.
    assert (A1 : answer s = (a1, [status]))
      by (unfold answer; now rewrite Hrx).
    assert (B1 : byte_at (store buf1 (len (queuedRead s)) (snd (answer s))) 0
                 = uint8_t status).
    { rewrite A1, Hl. apply store_first; [| lia].
      destruct buf1; [discriminate L1 | discriminate]. }
    eexists. split; [| split].
    + apply Read_status_ok; [exact St | exact Hr |].
      rewrite B1. exact Hs.
    + reflexivity.
    + intros t2 Hr2.
      match type of Hr2 with timeRemaining ?x = 0 => set (s1 := x) in * end.
      assert (A2 : store buf2 (len (queuedRead s1)) (snd (answer s1))
                   = map uint8_t bytes).
      { unfold s1, answer. cbn [set_now rx queuedRead len].
        rewrite Hrx. cbn [tl hd snd].
        change 7 with (Z.of_nat 7). rewrite <- Lb.
        apply store_all. lia. }
      eexists. split; [| split].
      * rewrite <- sample_stored3, <- sample_map, <- A2.
        apply (Read_data_clean 1 data buf2 s1); [reflexivity | exact Hr2 |].
        cbv zeta. rewrite A2, byte_at_map. exact Hc.
      * reflexivity.
      * reflexivity.
  - intros data buf s status bytes rest Lb Hrx Ly Hs Hc.
    rewrite <- sample_stored3.
    apply (i2c_read_values data buf s status bytes rest); assumption.
  - exact stored3_fits.
  - intros lo hi c Hlo Hhi Hc p Hp. unfold stored.
    rewrite <- to_int16_stored.
    apply F32Facts.product_exact;
      [apply le_int16_range; assumption | exact Hc | exact Hp].
Qed.

Lemma read_stores_scaled_sample_witness :
  (exists s1 s2,
      ak8963Read 2 zero3 buf7 s_ready
      = (Some (mkResult false zero3 [WAITING_FOR_STATUS]), s1) /\
      ak8963Read 2 zero3 buf7 (set_now 20000 s1)
      = (Some (mkResult true (mkVec3 (-480) (-960) (-1440))
                        [WAITING_FOR_DATA]), s2) /\
      state s2 = CHECK_STATUS) /\
  fst (I2c.ak8963Read zero3 buf7 s_i2c)
  = (false, mkVec3 (-480) (-960) (-1440)) /\
  stored 0x10 0x00 (gain_of 0) = - 240.
Proof.
  destruct read_stores_scaled_sample as (Hspi & Hi2c & _ & Hex).
  split; [| split].
  - destruct (Hspi zero3 buf7 buf7 s_ready
                   true false 0x01 [0x10; 0; 0x20; 0; 0x30; 0; 0x00] [])
      as (s1 & E1 & St1 & H);
      try reflexivity.
    + discriminate.
    + split; reflexivity.
    + assert (Hr : timeRemaining (set_now 20000 s1) = 0).
      { rewrite timeRemaining_waiting.
        - replace s1 with (snd (ak8963Read 2 zero3 buf7 s_ready))
            by (rewrite E1; reflexivity).
          reflexivity.
        - replace s1 with (snd (ak8963Read 2 zero3 buf7 s_ready))
            by (rewrite E1; reflexivity).
          reflexivity. }
      destruct (H 20000 Hr) as (s2 & E2 & St2 & _).
      exists s1, s2. split; [exact E1 | split; [exact E2 | exact St2]].
  - rewrite (Hi2c zero3 buf7 s_i2c 0x01
                  [0x10; 0; 0x20; 0; 0x30; 0; 0x00] []);
      try reflexivity.
    + discriminate.
    + split; reflexivity.
  - apply (Hex 0x10 0x00 0); unfold is_byte; try lia.
    vm_compute. split; discriminate.
Defined.

End SampleFacts.

(** ** The acknowledgement of the transport is never looked at *)

Module AckFacts.
Import Spi Spec TrackerFacts ReadFacts.
Local Open Scope m_scope.

Lemma blind_ret {A} (a : A) : ack_blind (ret a).
Proof. intros s. reflexivity. Qed.

Lemma blind_bind {A B} (m : M A) (k : A -> M B) :
  ack_blind m -> (forall a, ack_blind (k a)) -> ack_blind (bind m k).
Proof.
  intros Hm Hk s. unfold bind. rewrite Hm.
  destruct (m s) as [a s1]. cbn [fst snd]. rewrite Hk.
  destruct (k a s1). reflexivity.
Qed.

Lemma blind_get {A} (f : sys -> A) :
  (forall s, f (ack_all s) = f s) -> ack_blind (get f).
Proof. intros H s. unfold get. rewrite H. reflexivity. Qed.

Lemma blind_modify (f : sys -> sys) :
  (forall s, f (ack_all s) = ack_all (f s)) -> ack_blind (modify f).
Proof. intros H s. unfold modify. rewrite H. reflexivity. Qed.

Lemma blind_if {A} (b : bool) (m1 m2 : M A) :
  ack_blind m1 -> ack_blind m2 -> ack_blind (if b then m1 else m2).
Proof. destruct b; auto. Qed.

(** Structural steps; what is left are the leaves. *)
Ltac blind :=
  repeat first
    [ apply blind_ret
    | apply blind_if
    | apply blind_bind; [| intros ?]
    | apply blind_get; intros ?; reflexivity
    | apply blind_modify; intros ?; reflexivity ].

Lemma blind_spiWriteRegisterDelay (reg : mpu_reg) (d : Z) :
  ack_blind (spiWriteRegisterDelay reg d).
Proof.
  unfold spiWriteRegisterDelay, spiBusWriteRegister, delayMicroseconds.
  blind.
Qed.

Lemma blind_SensorWrite (a r d : Z) : ack_blind (SensorWrite a r d).
Proof.
  unfold SensorWrite.
  repeat (apply blind_bind; [apply blind_spiWriteRegisterDelay | intros ?]).
  apply blind_ret.
Qed.

Lemma blind_StartRead (a r n : Z) : ack_blind (ak8963SensorStartRead a r n).
Proof.
  unfold ak8963SensorStartRead.
  apply blind_bind; [blind | intros q].
  apply blind_if; [blind |].
  apply blind_bind; [blind | intros ?].
  repeat (apply blind_bind; [apply blind_spiWriteRegisterDelay | intros ?]).
  unfold micros. blind.
Qed.

Lemma blind_TimeRemaining : ack_blind ak8963SensorQueuedReadTimeRemaining.
Proof. unfold ak8963SensorQueuedReadTimeRemaining, micros. blind. Qed.

(** The buffer read, with its acknowledgement dropped as
    [ak8963SensorCompleteRead] does. *)
Lemma blind_buffer_read (reg : mpu_reg) (buf : list Z) (n : Z) :
  ack_blind (r <- spiBusReadRegisterBuffer reg buf n ;; ret (true, snd r)).
Proof.
  intros s. destruct s as [t l r w q st g].
  unfold spiBusReadRegisterBuffer, bind, modify, ret, next_rx, ack_all.
  destruct r as [| [a d] r]; reflexivity.
Qed.

Lemma blind_CompleteRead (buf : list Z) :
  ack_blind (ak8963SensorCompleteRead buf).
Proof.
  unfold ak8963SensorCompleteRead.
  apply blind_bind; [apply blind_TimeRemaining | intros tr].
  apply blind_bind; [unfold delayMicroseconds; blind | intros ?].
  apply blind_bind; [blind | intros ?].
  apply blind_bind; [blind | intros q].
  apply blind_buffer_read.
Qed.

Lemma blind_switch (retry : bool) (buf : list Z) :
  ack_blind (ak8963Read_switch retry buf).
Proof.
  unfold ak8963Read_switch.
  apply blind_bind; [blind | intros st].
  destruct st.
  - apply blind_bind; [apply blind_StartRead | intros ?].
    unfold state_incr. blind.
  - apply blind_bind; [apply blind_TimeRemaining | intros tr].
    apply blind_if; [blind |].
    apply blind_bind; [apply blind_CompleteRead | intros r].
    cbv zeta. apply blind_if; [blind |].
    apply blind_bind; [apply blind_StartRead | intros ?].
    unfold state_incr. blind.
  - apply blind_bind; [apply blind_TimeRemaining | intros tr].
    apply blind_if; [blind |].
    apply blind_bind; [apply blind_CompleteRead | intros r].
    blind.
Qed.

Lemma blind_tail (ack : bool) (buf : list Z) (data : vec3 Z) :
  ack_blind (ak8963Read_tail (modify (set_state CHECK_STATUS)) ack buf data).
Proof.
  unfold ak8963Read_tail. cbv zeta. apply blind_if; [blind |].
  apply blind_bind; [blind | intros g].
  apply blind_bind; [blind | intros ?].
  apply blind_bind; [apply blind_SensorWrite | intros ?].
  blind.
Qed.

Lemma blind_restart (fuel : nat) :
  forall retry buf data seen,
    ack_blind (ak8963Read_restart fuel retry buf data seen).
Proof.
  induction fuel as [| fuel IH]; intros retry buf data seen;
    cbn [ak8963Read_restart]; [blind |].
  apply blind_bind; [blind | intros st].
  apply blind_bind; [apply blind_switch | intros f].
  destruct f as [r | retry' buf' | ack buf'].
  - blind.
  - apply IH.
  - apply blind_bind; [apply blind_tail | intros ?]. blind.
Qed.

(** C9.  [ak8963SensorCompleteRead] returns true whatever the
    transport does, so a call of [ak8963Read] in the SPI build runs the
    same whether or not the bus acknowledges; in particular a data
    fetch that was not acknowledged, with a clean status2, is reported
    as new data. *)
Theorem completeRead_ack_discarded :
  (forall (buf : list Z) (s : sys),
      fst (fst (ak8963SensorCompleteRead buf s)) = true) /\
  (forall (fuel : nat) (data : vec3 Z) (buf : list Z) (s : sys),
      ak8963Read fuel data buf (ack_all s)
      = (fst (ak8963Read fuel data buf s),
         ack_all (snd (ak8963Read fuel data buf s)))) /\
  (forall (data : vec3 Z) (buf : list Z) (s : sys),
      state s = WAITING_FOR_DATA ->
      timeRemaining s = 0 ->
      fst (answer s) = false ->
      status2_clean
        (byte_at (store buf (len (queuedRead s)) (snd (answer s))) 6) ->
      exists r s',
        ak8963Read 2 data buf s = (Some r, s') /\ newData r = true).
Proof.
  split; [| split].
  - intros buf s. rewrite CompleteRead_eq. reflexivity.
  - intros fuel data buf s. apply blind_restart.
  - intros data buf s St Hr _ Hc.
    do 2 eexists. split; [apply Read_data_clean; assumption | reflexivity].
Qed.

Lemma completeRead_ack_discarded_witness :
  exists r s',
    ak8963Read 2 zero3 buf7
               (set_now 20000 (snd (ak8963Read 2 zero3 buf7 s_ready)))
    = (Some r, s') /\ newData r = true.
Proof.
  apply (proj2 (proj2 completeRead_ack_discarded)); try reflexivity.
  split; reflexivity.
Defined.

End AckFacts.

(** ** Initialisation and the gains *)

Module InitFacts.
Import Spec TrackerFacts.
Local Open Scope m_scope.

Section Keeps.
Context {A B C : Type} (f : sys -> C).

Lemma keeps_ret (a : A) : keeps f (ret a).
Proof. intros s. reflexivity. Qed.

Lemma keeps_get (g : sys -> A) : keeps f (get g).
Proof. intros s. reflexivity. Qed.

Lemma keeps_modify (g : sys -> sys) :
  (forall s, f (g s) = f s) -> keeps f (modify g).
Proof. intros H s. apply H. Qed.

Lemma keeps_bind (m : M A) (k : A -> M B) :
  keeps f m -> (forall a, keeps f (k a)) -> keeps f (bind m k).
Proof.
  intros Hm Hk s. unfold bind. specialize (Hm s).
  destruct (m s) as [a s1]. cbn [snd] in Hm. rewrite <- Hm. apply Hk.
Qed.

Lemma keeps_if (b : bool) (m1 m2 : M A) :
  keeps f m1 -> keeps f m2 -> keeps f (if b then m1 else m2).
Proof. destruct b; auto. Qed.
End Keeps.

Lemma fst_bind {A B} (m : M A) (k : A -> M B) (b : B) (s : sys) :
  (forall a s', fst (k a s') = b) -> fst (bind m k s) = b.
Proof. intros H. unfold bind. destruct (m s). apply H. Qed.

Lemma snd_bind {A B} (m : M A) (k : A -> M B) (s : sys) :
  snd (bind m k s) = snd (k (fst (m s)) (snd (m s))).
Proof. unfold bind. destruct (m s). reflexivity. Qed.

Ltac keep :=
  repeat first
    [ apply keeps_ret
    | apply keeps_get
    | apply keeps_if
    | apply keeps_bind; [| intros ?]
    | apply keeps_modify; intros ?; reflexivity ].

Lemma keeps_gain_next_rx : keeps magGain next_rx.
Proof. intros s. unfold next_rx. destruct (rx s); reflexivity. Qed.

Lemma keeps_gain_next_wx : keeps magGain next_wx.
Proof. intros s. unfold next_wx. destruct (wx s); reflexivity. Qed.

Lemma keeps_rx_next_wx : keeps rx next_wx.
Proof. intros s. unfold next_wx. destruct (wx s); reflexivity. Qed.

(** What a build has to provide for the facts about [ak8963Init]. *)
Section AnyBuild.
Context (bus : SensorBus).
Hypothesis write_keeps_rx :
  forall a r d, keeps rx (ak8963SensorWrite a r d).
Hypothesis write_keeps_gain :
  forall a r d, keeps magGain (ak8963SensorWrite a r d).
Hypothesis read_keeps_gain :
  forall a r n buf, keeps magGain (ak8963SensorRead a r n buf).
Hypothesis read_result :
  forall a r n buf s,
    snd (fst (ak8963SensorRead a r n buf s))
    = store buf n (snd (answer s)).

Lemma Init_gains (calibration status : list Z) (s : sys) :
  magGain (snd (ak8963Init calibration status s))
  = let c := store calibration 3 (snd (answer s)) in
    mkVec3 (gain_of (byte_at c 0)) (gain_of (byte_at c 1))
           (gain_of (byte_at c 2)).
Proof.
  unfold ak8963Init. do 4 rewrite snd_bind. cbv beta.
  set (s2 := snd (ak8963SensorWrite _ _ _ (snd (ak8963SensorWrite _ _ _ s)))).
  assert (R : answer s2 = answer s).
  { unfold answer, s2. now rewrite !write_keeps_rx. }
  match goal with
  | |- magGain (snd (?k ?s3)) = _ => assert (K : keeps magGain k)
  end.
  { apply keeps_bind; [apply write_keeps_gain | intros ?].
    apply keeps_bind; [apply read_keeps_gain | intros ?].
    apply keeps_bind; [apply read_keeps_gain | intros ?].
    apply keeps_bind; [apply write_keeps_gain | intros ?].
    apply keeps_ret. }
  rewrite K. cbn [modify snd set_magGain magGain].
  rewrite read_result, R. reflexivity.
Qed.

Lemma tail_keeps_gain (reset : M unit) (ack : bool) (buf : list Z)
      (data : vec3 Z) :
  keeps magGain reset ->
  keeps magGain (ak8963Read_tail reset ack buf data).
Proof.
  intros Hr. unfold ak8963Read_tail. cbv zeta. apply keeps_if; [keep |].
  apply keeps_bind; [keep | intros g].
  apply keeps_bind; [exact Hr | intros ?].
  apply keeps_bind; [apply write_keeps_gain | intros ?]. keep.
Qed.
End AnyBuild.

(** [ak8963Init] ends in [return true] whatever the bus functions do. *)
Lemma Init_true (bus : SensorBus) (calibration status : list Z) (s : sys) :
  fst (ak8963Init calibration status s) = true.
Proof.
  unfold ak8963Init.
  repeat (apply fst_bind; intros ? ?). reflexivity.
Qed.

(** *** The SPI build *)

Lemma spi_delay_keeps {C} (f : sys -> C) (reg : mpu_reg) (d : Z) :
  (forall e s, f (emit e s) = f s) ->
  (forall t s, f (set_now t s) = f s) ->
  keeps f (Spi.spiWriteRegisterDelay reg d).
Proof.
  intros He Hn.
  unfold Spi.spiWriteRegisterDelay, spiBusWriteRegister, delayMicroseconds.
  repeat first [apply keeps_ret | apply keeps_bind; [| intros ?]
               | apply keeps_modify; intros ?; rewrite ?He, ?Hn;
                 reflexivity].
Qed.

Lemma spi_write_keeps {C} (f : sys -> C) (a r d : Z) :
  (forall e s, f (emit e s) = f s) ->
  (forall t s, f (set_now t s) = f s) ->
  keeps f (Spi.SensorWrite a r d).
Proof.
  intros He Hn. unfold Spi.SensorWrite.
  repeat (apply keeps_bind; [apply spi_delay_keeps; assumption | intros ?]).
  apply keeps_ret.
Qed.

Lemma spi_buffer_read_keeps_gain (reg : mpu_reg) (buf : list Z) (n : Z) :
  keeps magGain (spiBusReadRegisterBuffer reg buf n).
Proof.
  unfold spiBusReadRegisterBuffer.
  apply keeps_bind; [keep | intros ?].
  apply keeps_bind; [apply keeps_gain_next_rx | intros ?]. keep.
Qed.

Lemma spi_read_keeps_gain (a r n : Z) (buf : list Z) :
  keeps magGain (Spi.SensorRead a r n buf).
Proof.
  unfold Spi.SensorRead.
  repeat (apply keeps_bind;
          [apply spi_delay_keeps; reflexivity | intros ?]).
  unfold delay, __disable_irq, __enable_irq.
  apply keeps_bind; [keep | intros ?].
  apply keeps_bind; [keep | intros ?].
  apply keeps_bind; [apply spi_buffer_read_keeps_gain | intros ?]. keep.
Qed.

Lemma spi_read_result (a r n : Z) (buf : list Z) (s : sys) :
  snd (fst (Spi.SensorRead a r n buf s)) = store buf n (snd (answer s)).
Proof.
  unfold Spi.SensorRead.
  repeat (erewrite run_known by apply spiWriteRegisterDelay_eq; fields).
  mrun. erewrite run_known by apply next_rx_eq. mrun. reflexivity.
Qed.

Lemma spi_StartRead_keeps_gain (a r n : Z) :
  keeps magGain (Spi.ak8963SensorStartRead a r n).
Proof.
  unfold Spi.ak8963SensorStartRead.
  apply keeps_bind; [keep | intros q]. apply keeps_if; [keep |].
  apply keeps_bind; [keep | intros ?].
  repeat (apply keeps_bind;
          [apply spi_delay_keeps; reflexivity | intros ?]).
  unfold micros. keep.
Qed.

Lemma spi_TimeRemaining_keeps_gain :
  keeps magGain Spi.ak8963SensorQueuedReadTimeRemaining.
Proof.
  intros s. rewrite TimeRemaining_eq. reflexivity.
Qed.

Lemma spi_CompleteRead_keeps_gain (buf : list Z) :
  keeps magGain (Spi.ak8963SensorCompleteRead buf).
Proof. intros s. rewrite CompleteRead_eq. reflexivity. Qed.

Lemma spi_switch_keeps_gain (retry : bool) (buf : list Z) :
  keeps magGain (Spi.ak8963Read_switch retry buf).
Proof.
  unfold Spi.ak8963Read_switch.
  apply keeps_bind; [keep | intros st].
  destruct st.
  - apply keeps_bind; [apply spi_StartRead_keeps_gain | intros ?].
    unfold Spi.state_incr. keep.
  - apply keeps_bind; [apply spi_TimeRemaining_keeps_gain | intros tr].
    apply keeps_if; [keep |].
    apply keeps_bind; [apply spi_CompleteRead_keeps_gain | intros r].
    cbv zeta. apply keeps_if; [keep |].
    apply keeps_bind; [apply spi_StartRead_keeps_gain | intros ?].
    unfold Spi.state_incr. keep.
  - apply keeps_bind; [apply spi_TimeRemaining_keeps_gain | intros tr].
    apply keeps_if; [keep |].
    apply keeps_bind; [apply spi_CompleteRead_keeps_gain | intros r].
    keep.
Qed.

Lemma spi_Read_keeps_gain (fuel : nat) :
  forall retry buf data seen,
    keeps magGain (Spi.ak8963Read_restart fuel retry buf data seen).
Proof.
  induction fuel as [| fuel IH]; intros retry buf data seen;
    cbn [Spi.ak8963Read_restart]; [keep |].
  apply keeps_bind; [keep | intros st].
  apply keeps_bind; [apply spi_switch_keeps_gain | intros f].
  destruct f as [r | retry' buf' | ack buf'].
  - keep.
  - apply IH.
  - apply keeps_bind; [| intros ?; keep].
    apply (tail_keeps_gain Spi.bus).
    + intros a r d. apply spi_write_keeps; reflexivity.
    + keep.
Qed.

(** *** The I2C build *)

Lemma i2c_write_keeps_gain (a r d : Z) :
  keeps magGain (I2c.SensorWrite a r d).
Proof.
  unfold I2c.SensorWrite, i2cWrite.
  apply keeps_bind; [keep | intros ?]. apply keeps_gain_next_wx.
Qed.

Lemma i2c_write_keeps_rx (a r d : Z) : keeps rx (I2c.SensorWrite a r d).
Proof.
  unfold I2c.SensorWrite, i2cWrite.
  apply keeps_bind; [keep | intros ?]. apply keeps_rx_next_wx.
Qed.

Lemma i2c_read_keeps_gain (a r n : Z) (buf : list Z) :
  keeps magGain (I2c.SensorRead a r n buf).
Proof.
  unfold I2c.SensorRead, i2cRead.
  apply keeps_bind; [keep | intros ?].
  apply keeps_bind; [apply keeps_gain_next_rx | intros ?]. keep.
Qed.

Lemma i2c_read_result (a r n : Z) (buf : list Z) (s : sys) :
  snd (fst (I2c.SensorRead a r n buf s)) = store buf n (snd (answer s)).
Proof.
  unfold I2c.SensorRead. mrun.
  erewrite run_known by apply next_rx_eq. mrun. reflexivity.
Qed.

Lemma i2c_Read_keeps_gain (data : vec3 Z) (buf : list Z) :
  keeps magGain (I2c.ak8963Read data buf).
Proof.
  unfold I2c.ak8963Read.
  apply keeps_bind; [apply i2c_read_keeps_gain | intros r].
  cbv zeta. apply keeps_if; [keep |].
  apply keeps_bind; [apply i2c_read_keeps_gain | intros r2].
  apply (tail_keeps_gain I2c.bus); [apply i2c_write_keeps_gain | keep].
Qed.

(** C7.  [ak8963Init] sets each gain from the corresponding calibration
    byte read as a signed 8-bit trim value, and the single-precision
    result is exactly [(((trim - 128) / 256) + 1) * 30]; no later
    operation of the driver changes the gains. *)
Theorem init_gains :
  (forall (calibration status : list Z) (s : sys),
      let c := store calibration 3 (snd (answer s)) in
      magGain (snd (@ak8963Init Spi.bus calibration status s))
      = mkVec3 (gain_of (byte_at c 0)) (gain_of (byte_at c 1))
               (gain_of (byte_at c 2)) /\
      magGain (snd (@ak8963Init I2c.bus calibration status s))
      = mkVec3 (gain_of (byte_at c 0)) (gain_of (byte_at c 1))
               (gain_of (byte_at c 2))) /\
  (forall c : Z,
      is_byte c ->
      Qeq (F32.value (gain_of c)) (gain_formula (int8_t c))) /\
  (forall (fuel : nat) (data : vec3 Z) (buf : list Z) (s : sys),
      magGain (snd (Spi.ak8963Read fuel data buf s)) = magGain s) /\
  (forall (data : vec3 Z) (buf : list Z) (s : sys),
      magGain (snd (I2c.ak8963Read data buf s)) = magGain s) /\
  (forall (a r n : Z) (buf : list Z) (s : sys),
      magGain (snd (Spi.ak8963SensorStartRead a r n s)) = magGain s /\
      magGain (snd (Spi.ak8963SensorCompleteRead buf s)) = magGain s /\
      magGain (snd (Spi.ak8963SensorQueuedReadTimeRemaining s))
      = magGain s).
Proof.
  split; [| split; [| split; [| split]]].
  - intros calibration status s c. split.
    + apply (Init_gains Spi.bus).
      * intros a r d. apply spi_write_keeps; reflexivity.
      * intros a r d. apply spi_write_keeps; reflexivity.
      * apply spi_read_keeps_gain.
      * apply spi_read_result.
    + apply (Init_gains I2c.bus).
      * apply i2c_write_keeps_rx.
      * apply i2c_write_keeps_gain.
      * apply i2c_read_keeps_gain.
      * apply i2c_read_result.
  - exact F32Facts.gain_of_value.
  - intros fuel data buf s. apply spi_Read_keeps_gain.
  - intros data buf s. apply i2c_Read_keeps_gain.
  - intros a r n buf s. split; [| split].
    + apply spi_StartRead_keeps_gain.
    + apply spi_CompleteRead_keeps_gain.
    + apply spi_TimeRemaining_keeps_gain.
Qed.

Lemma init_gains_witness :
  Qeq (F32.value (gain_of 176)) (gain_formula (-80)).
Proof.
  apply (proj1 (proj2 init_gains) 176). unfold is_byte. lia.
Defined.

(** C8.  [ak8963Init] returns true whatever the transport does, in
    either build, and for any implementation of the bus functions. *)
Theorem init_returns_true :
  (forall (bus : SensorBus) (calibration status : list Z) (s : sys),
      fst (ak8963Init calibration status s) = true) /\
  fst (@ak8963Init Spi.bus [0; 0; 0] [0] (boot 0 [] [])) = true /\
  fst (@ak8963Init I2c.bus [0; 0; 0] [0] (boot 0 [] [])) = true.
Proof.
  split; [exact Init_true | split; reflexivity].
Qed.

End InitFacts.

(** ** The VTX table *)

Module Vtx58Facts.
Import Vtx58.

Lemma band_cases (band : Z) :
  1 <= band <= VTX_STRING_BAND_COUNT -> band = 1 \/ band = 2.
Proof. unfold VTX_STRING_BAND_COUNT; lia. Qed.

Lemma channel_cases (channel : Z) :
  1 <= channel <= VTX_STRING_CHAN_COUNT ->
  channel = 1 \/ channel = 2 \/ channel = 3 \/ channel = 4 \/
  channel = 5 \/ channel = 6 \/ channel = 7 \/ channel = 8.
Proof. unfold VTX_STRING_CHAN_COUNT; lia. Qed.

(** Looking a table entry up by frequency gives its position back. *)
Lemma Freq2Bandchan_Bandchan2Freq (band channel : Z) :
  1 <= band <= VTX_STRING_BAND_COUNT ->
  1 <= channel <= VTX_STRING_CHAN_COUNT ->
  vtx58_Freq2Bandchan (vtx58_Bandchan2Freq band channel)
  = (true, band, channel).
Proof.
  intros Hb Hc.
  destruct (band_cases band Hb) as [-> | ->];
    destruct (channel_cases channel Hc)
      as [-> | [-> | [-> | [-> | [-> | [-> | [-> | ->]]]]]]];
    reflexivity.
Qed.

Lemma Bandchan2Freq_out_of_range (band channel : Z) :
  ~ (1 <= band <= VTX_STRING_BAND_COUNT /\
     1 <= channel <= VTX_STRING_CHAN_COUNT) ->
  vtx58_Bandchan2Freq band channel = 0.
Proof.
  intros H. unfold vtx58_Bandchan2Freq.
  destruct (0 <? band) eqn:E1; [| reflexivity].
  destruct (band <=? VTX_STRING_BAND_COUNT) eqn:E2; [| reflexivity].
  destruct (0 <? channel) eqn:E3; [| reflexivity].
  destruct (channel <=? VTX_STRING_CHAN_COUNT) eqn:E4; [| reflexivity].
  exfalso; apply H. lia.
Qed.

(** A miss of the inner loop means no entry of the visited part of the
    row equals the frequency. *)
Lemma chan_loop_miss (n : nat) (band channel freq : Z) :
  (forall i, (i < n)%nat -> table_at band (channel + Z.of_nat i) <> freq) ->
  chan_loop n band channel freq = None.
Proof.
  revert channel; induction n as [| n IH]; intros channel H; [reflexivity |].
  cbn [chan_loop].
  destruct (Z.eqb_spec (table_at band channel) freq) as [E | _].
  - exfalso. apply (H 0%nat); [lia |]. now rewrite Z.add_0_r.
  - apply IH. intros i Hi.
    replace (channel + 1 + Z.of_nat i) with (channel + Z.of_nat (S i)) by lia.
    apply H; lia.
Qed.

Lemma table_at_in (band channel : nat) :
  (band < 2)%nat -> (channel < 8)%nat ->
  in_table (table_at (Z.of_nat band) (Z.of_nat channel)).
Proof.
  intros Hb Hc. unfold table_at. rewrite !Nat2Z.id.
  exists (nth band vtx58frequencyTable []). split.
  - apply nth_In. exact Hb.
  - apply nth_In.
    destruct band as [| [| band]]; [exact Hc | exact Hc | lia].
Qed.

Lemma Freq2Bandchan_miss (freq : Z) :
  ~ in_table freq -> vtx58_Freq2Bandchan freq = (false, 0, 0).
Proof.
  intros H. unfold vtx58_Freq2Bandchan.
  change (Z.to_nat VTX_STRING_BAND_COUNT) with 2%nat.
  change (VTX_STRING_BAND_COUNT - 1) with 1.
  cbn [band_loop].
  change (Z.to_nat VTX_STRING_CHAN_COUNT) with 8%nat.
  rewrite (chan_loop_miss 8 1 0 freq).
  2:{ intros i Hi E. apply H. rewrite <- E.
      apply (table_at_in 1 i); lia. }
  change (1 - 1) with 0.
  rewrite (chan_loop_miss 8 0 0 freq).
  2:{ intros i Hi E. apply H. rewrite <- E.
      apply (table_at_in 0 i); lia. }
  reflexivity.
Qed.

(** The entries of the table are pairwise distinct. *)
Lemma table_NoDup : NoDup (concat vtx58frequencyTable).
Proof.
  cbn. repeat (constructor; [cbn; intuition discriminate |]). constructor.
Qed.

(** C10.  Band/channel to frequency and back is the identity on bands
    1..2 and channels 1..8; outside these ranges [vtx58_Bandchan2Freq]
    returns 0; and for a frequency that is not in the table
    [vtx58_Freq2Bandchan] returns false and sets both outputs to 0. *)
Theorem vtx58_roundtrip :
  (forall band channel,
      1 <= band <= 2 -> 1 <= channel <= 8 ->
      vtx58_Freq2Bandchan (vtx58_Bandchan2Freq band channel)
      = (true, band, channel)) /\
  NoDup (concat vtx58frequencyTable) /\
  (forall band channel,
      ~ (1 <= band <= 2 /\ 1 <= channel <= 8) ->
      vtx58_Bandchan2Freq band channel = 0) /\
  (forall freq,
      ~ in_table freq -> vtx58_Freq2Bandchan freq = (false, 0, 0)).
Proof.
  split; [| split; [| split]].
  - exact Freq2Bandchan_Bandchan2Freq.
  - exact table_NoDup.
  - exact Bandchan2Freq_out_of_range.
  - exact Freq2Bandchan_miss.
Qed.

Lemma vtx58_roundtrip_witness :
  vtx58_Freq2Bandchan (vtx58_Bandchan2Freq 1 7) = (true, 1, 7) /\
  vtx58_Bandchan2Freq 3 1 = 0 /\
  vtx58_Freq2Bandchan 5800 = (false, 0, 0).
Proof.
  destruct vtx58_roundtrip as (H1 & _ & H2 & H3).
  split; [apply H1; lia | split; [apply H2; lia |]].
  apply H3. intros (row & Hrow & Hin).
  cbn in Hrow. destruct Hrow as [<- | [<- | []]]; cbn in Hin;
    repeat (destruct Hin as [Hin | Hin]; [discriminate Hin |]);
    exact Hin.
Defined.

End Vtx58Facts.

(* ================================================================== *)
(** * Further properties *)

(** ** The VTX table, from frequency to band and channel *)

Module Vtx58More.
Import Vtx58 Vtx58Facts Vtx58Names.

(** A hit of the inner loop names the entry it stopped at. *)
Lemma chan_loop_hit (n : nat) :
  forall band channel freq b c,
    chan_loop n band channel freq = Some (b, c) ->
    b = uint8_t (band + 1) /\
    exists i, (i < n)%nat /\ c = uint8_t (channel + Z.of_nat i + 1) /\
              table_at band (channel + Z.of_nat i) = freq.
Proof.
  induction n as [| n IH]; intros band channel freq b c H;
    cbn [chan_loop] in H; [discriminate H |].
  destruct (Z.eqb_spec (table_at band channel) freq) as [E | _].
  - injection H as <- <-. split; [reflexivity |].
    exists 0%nat. rewrite Z.add_0_r. repeat split; [lia | exact E].
  - destruct (IH band (channel + 1) freq b c H) as (Hb & i & Hi & Hc & Ht).
    split; [exact Hb |]. exists (S i).
    replace (channel + Z.of_nat (S i)) with (channel + 1 + Z.of_nat i)
      by lia.
    repeat split; [lia | exact Hc | exact Ht].
Qed.

Lemma below_8 (i : nat) :
  (i < 8)%nat ->
  i = 0%nat \/ i = 1%nat \/ i = 2%nat \/ i = 3%nat \/
  i = 4%nat \/ i = 5%nat \/ i = 6%nat \/ i = 7%nat.
Proof. lia. Qed.

(** The function either misses, or hits with some band and channel. *)
Lemma Freq2Bandchan_cases (freq : Z) :
  vtx58_Freq2Bandchan freq = (false, 0, 0) \/
  exists b c, vtx58_Freq2Bandchan freq = (true, b, c).
Proof.
  unfold vtx58_Freq2Bandchan.
  destruct (band_loop _ _ freq) as [[b c] |].
  - right. exists b, c. reflexivity.
  - left. reflexivity.
Qed.

Lemma Freq2Bandchan_hit (freq b c : Z) :
  vtx58_Freq2Bandchan freq = (true, b, c) ->
  1 <= b <= 2 /\ 1 <= c <= 8 /\ vtx58_Bandchan2Freq b c = freq.
Proof.
  unfold vtx58_Freq2Bandchan.
  change (Z.to_nat VTX_STRING_BAND_COUNT) with 2%nat.
  change (VTX_STRING_BAND_COUNT - 1) with 1.
  cbn [band_loop]. change (Z.to_nat VTX_STRING_CHAN_COUNT) with 8%nat.
  change (1 - 1) with 0.
  destruct (chan_loop 8 1 0 freq) as [[b1 c1] |] eqn:E1.
  - intros H. injection H as <- <-.
    destruct (chan_loop_hit 8 1 0 freq b1 c1 E1) as (-> & i & Hi & -> & <-).
    destruct (below_8 i Hi)
      as [-> | [-> | [-> | [-> | [-> | [-> | [-> | ->]]]]]]];
      (split; [vm_compute; intuition discriminate |
               split; [vm_compute; intuition discriminate | reflexivity]]).
  - destruct (chan_loop 8 0 0 freq) as [[b0 c0] |] eqn:E0;
      [| intros H; discriminate H].
    intros H. injection H as <- <-.
    destruct (chan_loop_hit 8 0 0 freq b0 c0 E0) as (-> & i & Hi & -> & <-).
    destruct (below_8 i Hi)
      as [-> | [-> | [-> | [-> | [-> | [-> | [-> | ->]]]]]]];
      (split; [vm_compute; intuition discriminate |
               split; [vm_compute; intuition discriminate | reflexivity]]).
Qed.

(** X1.  When [vtx58_Freq2Bandchan] reports success, the band is 1 or 2,
    the channel is 1..8, and [vtx58_Bandchan2Freq] of that band and
    channel is the frequency that was looked up. *)
Theorem Bandchan2Freq_Freq2Bandchan (freq b c : Z) :
  vtx58_Freq2Bandchan freq = (true, b, c) ->
  1 <= b <= 2 /\ 1 <= c <= 8 /\ vtx58_Bandchan2Freq b c = freq.
Proof. exact (Freq2Bandchan_hit freq b c). Qed.

Lemma Bandchan2Freq_Freq2Bandchan_witness :
  1 <= 2 <= 2 /\ 1 <= 3 <= 8 /\ vtx58_Bandchan2Freq 2 3 = 5436.
Proof. apply (Bandchan2Freq_Freq2Bandchan 5436 2 3). reflexivity. Defined.

Lemma valid_in_table (b c : Z) :
  1 <= b <= 2 -> 1 <= c <= 8 -> in_table (table_at (b - 1) (c - 1)).
Proof.
  intros Hb Hc.
  replace (b - 1) with (Z.of_nat (Z.to_nat (b - 1))) by lia.
  replace (c - 1) with (Z.of_nat (Z.to_nat (c - 1))) by lia.
  apply table_at_in; lia.
Qed.

Lemma Bandchan2Freq_valid (b c : Z) :
  1 <= b <= 2 -> 1 <= c <= 8 ->
  vtx58_Bandchan2Freq b c = table_at (b - 1) (c - 1).
Proof.
  intros Hb Hc. unfold vtx58_Bandchan2Freq.
  unfold VTX_STRING_BAND_COUNT, VTX_STRING_CHAN_COUNT.
  destruct (Z.ltb_spec 0 b); [| lia].
  destruct (Z.leb_spec b 2); [| lia].
  destruct (Z.ltb_spec 0 c); [| lia].
  destruct (Z.leb_spec c 8); [| lia].
  reflexivity.
Qed.

Lemma in_table_position (freq : Z) :
  in_table freq ->
  exists b c, 1 <= b <= 2 /\ 1 <= c <= 8 /\ vtx58_Bandchan2Freq b c = freq.
Proof.
  intros (row & Hrow & Hin). cbn in Hrow.
  destruct Hrow as [<- | [<- | []]]; cbn in Hin.
  - exists 1.
    destruct Hin as [<- | [<- | [<- | [<- | [<- | [<- | [<- | [<- | []]]]]]]]];
      [exists 1 | exists 2 | exists 3 | exists 4
       | exists 5 | exists 6 | exists 7 | exists 8];
      (split; [lia | split; [lia | reflexivity]]).
  - exists 2.
    destruct Hin as [<- | [<- | [<- | [<- | [<- | [<- | [<- | [<- | []]]]]]]]];
      [exists 1 | exists 2 | exists 3 | exists 4
       | exists 5 | exists 6 | exists 7 | exists 8];
      (split; [lia | split; [lia | reflexivity]]).
Qed.

(** X2.  [vtx58_Freq2Bandchan] returns true exactly for the frequencies
    of the table. *)
Theorem Freq2Bandchan_true_iff (freq : Z) :
  fst (fst (vtx58_Freq2Bandchan freq)) = true <-> in_table freq.
Proof.
  split.
  - intros H.
    destruct (Freq2Bandchan_cases freq) as [E | (b & c & E)].
    + rewrite E in H. discriminate H.
    + destruct (Freq2Bandchan_hit freq b c E) as (Hb & Hc & <-).
      rewrite (Bandchan2Freq_valid b c Hb Hc).
      apply valid_in_table; assumption.
  - intros H. destruct (in_table_position freq H) as (b & c & Hb & Hc & <-).
    rewrite (Freq2Bandchan_Bandchan2Freq b c); [reflexivity | exact Hb |
                                                 exact Hc].
Qed.

(** X3.  For a band in 1..2 and a channel in 1..8 the frequency is
    between 5362 and 5917 MHz, so the value 0 of [vtx58_Bandchan2Freq]
    says exactly that band or channel was out of range. *)
Theorem Bandchan2Freq_zero_iff (band channel : Z) :
  (1 <= band <= 2 /\ 1 <= channel <= 8 ->
   5362 <= vtx58_Bandchan2Freq band channel <= 5917) /\
  (vtx58_Bandchan2Freq band channel = 0 <->
   ~ (1 <= band <= 2 /\ 1 <= channel <= 8)).
Proof.
  assert (R : 1 <= band <= 2 /\ 1 <= channel <= 8 ->
              5362 <= vtx58_Bandchan2Freq band channel <= 5917).
  { intros [Hb Hc].
    destruct (band_cases band Hb) as [-> | ->];
      destruct (channel_cases channel Hc)
        as [-> | [-> | [-> | [-> | [-> | [-> | [-> | ->]]]]]]];
      vm_compute; intuition discriminate. }
  split; [exact R |]. split.
  - intros E V. specialize (R V). lia.
  - apply Bandchan2Freq_out_of_range.
Qed.

Lemma Bandchan2Freq_zero_iff_witness :
  5362 <= vtx58_Bandchan2Freq 2 1 <= 5917 /\ vtx58_Bandchan2Freq 0 1 = 0.
Proof.
  split.
  - apply (proj1 (Bandchan2Freq_zero_iff 2 1)). lia.
  - apply (proj2 (Bandchan2Freq_zero_iff 0 1)). lia.
Defined.

(** X4.  The two bands form one arithmetic progression of sixteen
    frequencies 37 MHz apart, starting at 5362 MHz with LowRaceBand
    channel 1 and continuing through RaceBand; the lookup by frequency
    inverts it. *)
Theorem table_progression :
  (forall band channel,
      1 <= band <= 2 -> 1 <= channel <= 8 ->
      vtx58_Bandchan2Freq band channel = 5362 + 37 * slot band channel) /\
  (forall k,
      0 <= k < 16 ->
      vtx58_Freq2Bandchan (5362 + 37 * k) = (true, 2 - k / 8, k mod 8 + 1)).
Proof.
  split.
  - intros band channel Hb Hc.
    destruct (band_cases band Hb) as [-> | ->];
      destruct (channel_cases channel Hc)
        as [-> | [-> | [-> | [-> | [-> | [-> | [-> | ->]]]]]]];
      reflexivity.
  - intros k Hk.
    assert (C : k = 0 \/ k = 1 \/ k = 2 \/ k = 3 \/ k = 4 \/ k = 5 \/
                k = 6 \/ k = 7 \/ k = 8 \/ k = 9 \/ k = 10 \/ k = 11 \/
                k = 12 \/ k = 13 \/ k = 14 \/ k = 15) by lia.
    repeat (destruct C as [-> | C]; [reflexivity |]). subst k. reflexivity.
Qed.

Lemma table_progression_witness :
  vtx58_Bandchan2Freq 1 7 = 5362 + 37 * slot 1 7 /\
  vtx58_Freq2Bandchan (5362 + 37 * 14) = (true, 2 - 14 / 8, 14 mod 8 + 1).
Proof.
  split.
  - apply (proj1 table_progression); lia.
  - apply (proj2 table_progression). lia.
Defined.

(** X5.  Whatever the frequency, the band and channel that
    [vtx58_Freq2Bandchan] writes are valid indices into
    [vtx58BandNames], [vtx58BandLetter] and [vtx58ChannelNames]; the
    letter selected is the first character of the selected band name;
    and on failure the entries selected are the placeholders. *)
Theorem Freq2Bandchan_indexes_names (freq : Z) :
  let band := Z.to_nat (snd (fst (vtx58_Freq2Bandchan freq))) in
  let channel := Z.to_nat (snd (vtx58_Freq2Bandchan freq)) in
  (band < length vtx58BandNames)%nat /\
  (band < String.length vtx58BandLetter)%nat /\
  (channel < length vtx58ChannelNames)%nat /\
  String.get band vtx58BandLetter
  = String.get 0 (nth band vtx58BandNames EmptyString) /\
  (fst (fst (vtx58_Freq2Bandchan freq)) = false ->
   nth band vtx58BandNames EmptyString = "--------"%string /\
   nth channel vtx58ChannelNames EmptyString = "-"%string).
Proof.
  destruct (Freq2Bandchan_cases freq) as [E | (b & c & E)].
  - rewrite E. cbn. repeat split; lia.
  - destruct (Freq2Bandchan_hit freq b c E) as (Hb & Hc & _).
    rewrite E. cbn [fst snd].
    destruct (band_cases b Hb) as [-> | ->];
      destruct (channel_cases c Hc)
        as [-> | [-> | [-> | [-> | [-> | [-> | [-> | ->]]]]]]];
      cbn; repeat split; try lia; intros H; discriminate H.
Qed.

Lemma Freq2Bandchan_true_iff_witness :
  fst (fst (vtx58_Freq2Bandchan 5880)) = true.
Proof.
  apply (proj2 (Freq2Bandchan_true_iff 5880)).
  exists [ 5658; 5695; 5732; 5769; 5806; 5843; 5880; 5917 ].
  split; [left; reflexivity | cbn; intuition].
Defined.

Lemma Freq2Bandchan_indexes_names_witness :
  nth (Z.to_nat (snd (fst (vtx58_Freq2Bandchan 5800)))) vtx58BandNames
      EmptyString = "--------"%string /\
  nth (Z.to_nat (snd (vtx58_Freq2Bandchan 5800))) vtx58ChannelNames
      EmptyString = "-"%string.
Proof.
  apply (Freq2Bandchan_indexes_names 5800). reflexivity.
Defined.

End Vtx58More.

(** ** The tracker and the state machine over several calls *)

Module MachineMore.
Import Spi Spec Runs TrackerFacts ByteFacts ReadFacts InitFacts.
Local Open Scope m_scope.

(** X6.  A read can be queued when none is pending, a second one is then
    refused and leaves the first as it is, and once
    [ak8963SensorCompleteRead] has run, whatever the state it ran in, the
    next [ak8963SensorStartRead] succeeds. *)
Theorem startRead_sequence :
  (forall (a1 r1 n1 a2 r2 n2 : Z) (s : sys),
      waiting (queuedRead s) = false ->
      let s1 := snd (ak8963SensorStartRead a1 r1 n1 s) in
      fst (ak8963SensorStartRead a1 r1 n1 s) = true /\
      queuedRead s1 = mkQueuedRead true n1 (uint32_t (now s + 30)) /\
      ak8963SensorStartRead a2 r2 n2 s1 = (false, s1)) /\
  (forall (a r n : Z) (buf : list Z) (s : sys),
      let s1 := snd (ak8963SensorCompleteRead buf s) in
      fst (ak8963SensorStartRead a r n s1) = true /\
      len (queuedRead (snd (ak8963SensorStartRead a r n s1))) = n).
Proof.
  split.
  - intros a1 r1 n1 a2 r2 n2 s W. cbv zeta.
    rewrite (StartRead_idle a1 r1 n1 s W). cbn [fst snd queuedRead].
    split; [reflexivity | split; [reflexivity |]].
    apply StartRead_pending. reflexivity.
  - intros a r n buf s. cbv zeta. rewrite CompleteRead_eq. cbn [snd].
    rewrite StartRead_idle by reflexivity. split; reflexivity.
Qed.

Lemma startRead_sequence_witness :
  fst (ak8963SensorStartRead AK8963_MAG_I2C_ADDRESS AK8963_MAG_REG_STATUS1 1
                             s_idle) = true /\
  ak8963SensorStartRead
    AK8963_MAG_I2C_ADDRESS AK8963_MAG_REG_HXL 7
    (snd (ak8963SensorStartRead AK8963_MAG_I2C_ADDRESS
                                AK8963_MAG_REG_STATUS1 1 s_idle))
  = (false,
     snd (ak8963SensorStartRead AK8963_MAG_I2C_ADDRESS
                                AK8963_MAG_REG_STATUS1 1 s_idle)).
Proof.
  destruct (proj1 startRead_sequence
                  AK8963_MAG_I2C_ADDRESS AK8963_MAG_REG_STATUS1 1
                  AK8963_MAG_I2C_ADDRESS AK8963_MAG_REG_HXL 7 s_idle)
    as (H1 & _ & H2); [reflexivity |].
  split; [exact H1 | exact H2].
Defined.

(** X7.  Right after a read was queued the whole settle delay of 8000
    microseconds remains, at every value of the clock, its wrap-around
    included; completing the read at once blocks for exactly that long. *)
Theorem fresh_read_needs_full_settle (a r n : Z) (buf : list Z) (s : sys) :
  waiting (queuedRead s) = false ->
  let s1 := snd (ak8963SensorStartRead a r n s) in
  timeRemaining s1 = SETTLE_DELAY /\
  now (snd (ak8963SensorCompleteRead buf s1)) = now s1 + SETTLE_DELAY.
Proof.
  intros W. cbv zeta. rewrite (StartRead_idle a r n s W). cbn [snd].
  match goal with |- timeRemaining ?x = _ /\ _ => set (s1 := x) end.
  assert (T : timeRemaining s1 = SETTLE_DELAY).
  { rewrite timeRemaining_waiting by reflexivity.
    unfold s1. cbn [now queuedRead readStartedAt].
    rewrite Z.sub_diag. reflexivity. }
  split; [exact T |].
  rewrite CompleteRead_eq. cbn [snd now]. rewrite T. reflexivity.
Qed.

Lemma fresh_read_needs_full_settle_witness :
  timeRemaining
    (snd (ak8963SensorStartRead AK8963_MAG_I2C_ADDRESS
                                AK8963_MAG_REG_STATUS1 1
                                (set_now 4294967290 s_idle)))
  = SETTLE_DELAY.
Proof.
  apply (fresh_read_needs_full_settle
           AK8963_MAG_I2C_ADDRESS AK8963_MAG_REG_STATUS1 1 [0]
           (set_now 4294967290 s_idle)).
  reflexivity.
Defined.

(** Case analysis of one call of [ak8963Read]: every case rewrites the
    call into its result and final state. *)
Ltac read_cases data buf s :=
  let St := fresh "St" in
  let Hr := fresh "Hr" in
  let Hb := fresh "Hb" in
  destruct (state s) eqn:St;
  [ rewrite (Read_check 1 data buf s St)
  | destruct (Z.eq_dec (timeRemaining s) 0) as [Hr | Hr];
    [ destruct (Z.eq_dec
                  (Z.land (byte_at (store buf (len (queuedRead s))
                                          (snd (answer s))) 0)
                          STATUS1_DATA_READY) 0) as [Hb | Hb];
      [ rewrite (Read_status_fail 0 data buf s St Hr Hb)
      | rewrite (Read_status_ok 1 data buf s St Hr Hb) ]
    | rewrite (Read_not_ready 1 data buf s
                              ltac:(rewrite St; discriminate) Hr) ]
  | destruct (Z.eq_dec (timeRemaining s) 0) as [Hr | Hr];
    [ destruct (status2_clean_dec
                  (byte_at (store buf (len (queuedRead s))
                                  (snd (answer s))) 6)) as [Hb | Hb];
      [ rewrite (Read_data_clean 1 data buf s St Hr Hb)
      | rewrite (Read_data_fault 1 data buf s St Hr Hb) ]
    | rewrite (Read_not_ready 1 data buf s
                              ltac:(rewrite St; discriminate) Hr) ] ].

(** X8.  While a queued read is pending and its settle delay has not
    elapsed, a poll in WAITING_FOR_STATUS or WAITING_FOR_DATA returns
    false and changes nothing: no bus command, no answer consumed.  Once
    the delay has elapsed (within the range of the 32-bit timer) the poll
    fetches exactly one answer from the bus. *)
Theorem poll_waits_for_settle (data : vec3 Z) (buf : list Z) (s : sys)
        (t0 : Z) :
  state s <> CHECK_STATUS ->
  waiting (queuedRead s) = true ->
  issued_at s t0 ->
  now s - t0 < 2147483648 ->
  (now s - t0 < SETTLE_DELAY ->
   ak8963Read 2 data buf s = (Some (mkResult false data [state s]), s)) /\
  (SETTLE_DELAY <= now s - t0 ->
   rx (snd (ak8963Read 2 data buf s)) = tl (rx s)).
Proof.
  intros St W Hi Hd.
  pose proof (timeRemaining_formula s t0 W Hi Hd) as F.
  unfold SETTLE_DELAY in *. split.
  - intros Hlt. apply Read_not_ready; [exact St | lia].
  - intros Hge. assert (Hr0 : timeRemaining s = 0) by lia.
    read_cases data buf s; try reflexivity; congruence.
Qed.

Lemma poll_waits_for_settle_witness :
  ak8963Read 2 zero3 buf7 (set_state WAITING_FOR_STATUS s_early)
  = (Some (mkResult false zero3 [WAITING_FOR_STATUS]),
     set_state WAITING_FOR_STATUS s_early).
Proof.
  apply (proj1 (poll_waits_for_settle
                  zero3 buf7 (set_state WAITING_FOR_STATUS s_early) 1000
                  ltac:(discriminate) eq_refl
                  ltac:(split; [cbn; lia | reflexivity])
                  ltac:(cbn; lia))).
  unfold SETTLE_DELAY. cbn. lia.
Defined.

(** *** What a poll costs and what it sends *)

Lemma count_rearm_app (l1 l2 : list event) :
  count_rearm (l1 ++ l2) = (count_rearm l1 + count_rearm l2)%nat.
Proof. unfold count_rearm. rewrite filter_app, length_app. reflexivity. Qed.



(** X10.  A poll never waits: whatever the state, the clock advances by
    0, 30 or 40 microseconds, the fixed delays after the register writes
    of one queued read or of one re-arm command. *)
Theorem poll_never_blocks (data : vec3 Z) (buf : list Z) (s : sys) :
  let s' := snd (ak8963Read 2 data buf s) in
  now s' = now s \/ now s' = now s + 30 \/ now s' = now s + 40.
Proof.
  cbv zeta. read_cases data buf s; cbn [snd now].
  - destruct (waiting (queuedRead s)); cbn [now set_state]; auto.
  - auto.
  - auto.
  - auto.
  - auto.
  - auto.
  - auto.
Qed.



(** X12.  A poll that returns false leaves the caller's [magData] as it
    was, and a poll consumes at most one answer of the bus. *)
Theorem no_data_no_store (data : vec3 Z) (buf : list Z) (s : sys) :
  let out := ak8963Read 2 data buf s in
  (returned out = false ->
   exists l, fst out = Some (mkResult false data l)) /\
  (rx (snd out) = rx s \/ rx (snd out) = tl (rx s)).
Proof.
  cbv zeta. read_cases data buf s; unfold returned;
    cbn [fst snd newData rx].
  - split; [intros _; eexists; reflexivity |].
    destruct (waiting (queuedRead s)); cbn [rx set_state]; auto.
  - split; [intros _; eexists; reflexivity | auto].
  - split; [intros _; eexists; reflexivity | auto].
  - split; [intros _; eexists; reflexivity | auto].
  - split; [discriminate | auto].
  - split; [intros _; eexists; reflexivity | auto].
  - split; [intros _; eexists; reflexivity | auto].
Qed.

Lemma no_data_no_store_witness :
  exists l,
    fst (ak8963Read 2 zero3 buf7 s_fault) = Some (mkResult false zero3 l).
Proof.
  apply (proj1 (no_data_no_store zero3 buf7 s_fault)). reflexivity.
Defined.


(** *** What holds between polls *)

Lemma next_rx_keeps {C} (f : sys -> C) :
  (forall r s, f (set_rx r s) = f s) -> keeps f next_rx.
Proof.
  intros H s. unfold next_rx. destruct (rx s); [reflexivity | apply H].
Qed.

Lemma spi_read_keeps {C} (f : sys -> C) (a r n : Z) (buf : list Z) :
  (forall e s, f (emit e s) = f s) ->
  (forall t s, f (set_now t s) = f s) ->
  (forall r s, f (set_rx r s) = f s) ->
  keeps f (SensorRead a r n buf).
Proof.
  intros He Hn Hr. unfold SensorRead.
  repeat (apply keeps_bind; [apply spi_delay_keeps; assumption | intros ?]).
  unfold delay, __disable_irq, __enable_irq, spiBusReadRegisterBuffer.
  apply keeps_bind;
    [apply keeps_modify; intros ?; rewrite He, Hn; reflexivity | intros ?].
  apply keeps_bind; [apply keeps_modify; intros ?; apply He | intros ?].
  apply keeps_bind; [| intros ?].
  { apply keeps_bind; [apply keeps_modify; intros ?; apply He | intros ?].
    apply keeps_bind; [apply next_rx_keeps; assumption | intros ?].
    apply keeps_ret. }
  apply keeps_bind; [apply keeps_modify; intros ?; apply He | intros ?].
  apply keeps_ret.
Qed.

Lemma spi_Init_keeps {C} (f : sys -> C) (calibration status : list Z) :
  (forall e s, f (emit e s) = f s) ->
  (forall t s, f (set_now t s) = f s) ->
  (forall r s, f (set_rx r s) = f s) ->
  (forall g s, f (set_magGain g s) = f s) ->
  keeps f (@ak8963Init bus calibration status).
Proof.
  intros He Hn Hr Hg. unfold ak8963Init.
  change (@ak8963SensorWrite bus) with SensorWrite.
  change (@ak8963SensorRead bus) with SensorRead.
  apply keeps_bind; [apply spi_write_keeps; assumption | intros ?].
  apply keeps_bind; [apply spi_write_keeps; assumption | intros ?].
  apply keeps_bind; [apply spi_read_keeps; assumption | intros ?].
  apply keeps_bind; [apply keeps_modify; intros ?; apply Hg | intros ?].
  apply keeps_bind; [apply spi_write_keeps; assumption | intros ?].
  apply keeps_bind; [apply spi_read_keeps; assumption | intros ?].
  apply keeps_bind; [apply spi_read_keeps; assumption | intros ?].
  apply keeps_bind; [apply spi_write_keeps; assumption | intros ?].
  apply keeps_ret.
Qed.

Lemma spi_Detect_keeps {C B I} (f : sys -> C) (set : B -> I -> B)
      (instance : I) (r1 r2 r3 : mpu_reg) (v : Z) (mag : Detect.magDev_t B) :
  (forall e s, f (emit e s) = f s) ->
  (forall t s, f (set_now t s) = f s) ->
  (forall r s, f (set_rx r s) = f s) ->
  keeps f (Detect.SpiBuild.ak8963Detect set instance r1 r2 r3 v mag).
Proof.
  intros He Hn Hr.
  unfold Detect.SpiBuild.ak8963Detect.
  cbv zeta. unfold delay.
  apply keeps_bind; [apply spi_delay_keeps; assumption | intros ?].
  apply keeps_bind; [apply spi_delay_keeps; assumption | intros ?].
  apply keeps_bind; [apply spi_delay_keeps; assumption | intros ?].
  apply keeps_bind; [apply spi_write_keeps; assumption | intros ?].
  apply keeps_bind;
    [apply keeps_modify; intros ?; rewrite He, Hn; reflexivity | intros ?].
  apply keeps_bind; [apply spi_read_keeps; assumption | intros ?].
  apply keeps_if; apply keeps_ret.
Qed.

Lemma consistent_read (data : vec3 Z) (buf : list Z) (s : sys) :
  consistent s -> consistent (snd (ak8963Read 2 data buf s)).
Proof.
  unfold consistent at 1.
  read_cases data buf s; intros H; unfold consistent;
    cbn [snd state queuedRead waiting len];
    try (split; reflexivity); try reflexivity.
  - rewrite H. cbn [state queuedRead waiting len]. split; reflexivity.
  - rewrite St. exact H.
  - exact H.
  - rewrite St. exact H.
Qed.

(** X9.  In every state the SPI build can reach (boot, time passing, the
    bus changing its answers, [ak8963Detect], [ak8963Init], polls) the
    state machine and the tracker agree: nothing is pending in
    CHECK_STATUS, a 1-byte read is pending in WAITING_FOR_STATUS, and the
    recorded length is 7 in WAITING_FOR_DATA.  So the result of
    [ak8963SensorStartRead], which [ak8963Read] ignores, is never false:
    a poll in CHECK_STATUS always queues the status read. *)
Theorem reachable_consistent (s : sys) :
  reachable s ->
  consistent s /\
  (state s = CHECK_STATUS ->
   forall data buf,
     queuedRead (snd (ak8963Read 2 data buf s))
     = mkQueuedRead true 1 (uint32_t (now s + 30))).
Proof.
  intros R.
  assert (C : consistent s).
  { induction R as [t answers acks | s t _ IH | s answers _ IH
                    | s B I set instance r1 r2 r3 v mag _ IH
                    | s calibration status _ IH
                    | s data buf _ IH].
    - reflexivity.
    - exact IH.
    - exact IH.
    - unfold consistent in *.
      rewrite (spi_Detect_keeps state), (spi_Detect_keeps queuedRead);
        try reflexivity. exact IH.
    - unfold consistent in *.
      rewrite (spi_Init_keeps state), (spi_Init_keeps queuedRead);
        try reflexivity. exact IH.
    - apply consistent_read, IH. }
  split; [exact C |].
  intros St data buf. unfold consistent in C. rewrite St in C.
  rewrite (Read_check 1 data buf s St), C. reflexivity.
Qed.

Lemma reachable_consistent_witness :
  consistent (snd (ak8963Read 2 zero3 buf7 (boot 0 [(true, [1])] []))).
Proof.
  apply (reachable_consistent
           (snd (ak8963Read 2 zero3 buf7 (boot 0 [(true, [1])] [])))).
  apply reach_read, reach_boot.
Defined.

(** X13.  Once a poll has found a fault in status2, the machine stays in
    WAITING_FOR_DATA: as long as the bus keeps delivering seven bytes
    with a faulty status2, every later poll, at whatever time it comes,
    returns false, and no re-arm command is ever sent. *)
Theorem fault_sticks (ps : list (Z * list Z)) :
  forall (data : vec3 Z) (s : sys),
    state s = WAITING_FOR_DATA ->
    waiting (queuedRead s) = false ->
    len (queuedRead s) = 7 ->
    (length ps <= length (rx s))%nat ->
    Forall faulty (rx s) ->
    Forall (fun p => length (snd p) = 7%nat) ps ->
    let out := poll_many ps data s in
    Forall (fun r => r = false) (fst out) /\
    state (snd out) = WAITING_FOR_DATA /\
    count_rearm (trace (snd out)) = count_rearm (trace s).
Proof.
  induction ps as [| [t buf] ps IH]; intros data s St W L Hn Hf Hb;
    cbn [poll_many]; cbv zeta.
  - cbn [fst snd]. repeat split; [constructor | exact St].
  - destruct (rx s) as [| a rest] eqn:Hrx; [cbn in Hn; lia |].
    inversion Hf as [| a' rest' [La Fa] Hrest]; subst a' rest'.
    inversion Hb as [| p ps' Lb Hbs]; subst p ps'. cbn [snd] in Lb.
    set (s1 := set_now t s).
    assert (Hr : timeRemaining s1 = 0) by (apply timeRemaining_idle; exact W).
    assert (A : store buf (len (queuedRead s1)) (snd (answer s1))
                = map uint8_t (snd a)).
    { unfold s1, answer. cbn [set_now rx queuedRead]. rewrite L, Hrx.
      cbn [hd]. change 7 with (Z.of_nat 7). rewrite <- La.
      apply store_all. lia. }
    assert (E := Read_data_fault 1 data buf s1 St Hr).
    rewrite A, byte_at_map in E. specialize (E Fa).
    rewrite E. unfold returned at 1. cbn [fst snd newData].
    match goal with
    | |- context [poll_many ps data ?x] => set (s2 := x) in *
    end.
    assert (L2 : len (queuedRead s2) = 7) by exact L.
    assert (X2 : rx s2 = rest).
    { unfold s2, s1. cbn [rx set_now]. rewrite Hrx. reflexivity. }
    assert (N2 : (length ps <= length (rx s2))%nat).
    { rewrite X2. cbn in Hn. lia. }
    assert (F2 : Forall faulty (rx s2)) by (rewrite X2; exact Hrest).
    destruct (IH data s2 eq_refl eq_refl L2 N2 F2 Hbs) as (R1 & R2 & R3).
    cbn [fst snd].
    split; [constructor; [reflexivity | exact R1] |].
    split; [exact R2 |].
    rewrite R3. unfold s2, s1. cbn [trace set_now].
    rewrite count_rearm_app. cbn. lia.
Qed.

Lemma fault_sticks_witness :
  fst (poll_many [(20000, buf7); (4000000000, buf7)] zero3 s_stuck)
  = [false; false] /\
  state (snd (poll_many [(20000, buf7); (4000000000, buf7)] zero3 s_stuck))
  = WAITING_FOR_DATA.
Proof.
  destruct (fault_sticks [(20000, buf7); (4000000000, buf7)] zero3 s_stuck)
    as (_ & H & _); try reflexivity.
  - repeat (constructor;
            [split; [reflexivity
                    | intros [H1 _]; vm_compute in H1; discriminate H1] |]).
    constructor.
  - repeat constructor.
  - split; [reflexivity | exact H].
Defined.

End MachineMore.

(** ** Blocking reads, initialisation, detection *)

Module DriverMore.
Import Spi Spec Runs TrackerFacts ByteFacts ReadFacts InitFacts.
Local Open Scope m_scope.

(** X22.  The blocking read of the SPI build returns what the transport
    acknowledged and delivered, unlike [ak8963SensorCompleteRead]; it
    always blocks for 4030 microseconds; interrupts are off only around
    the buffer read and are on again on return; the tracker and the
    state machine are not touched. *)
Theorem blocking_read (addr_ reg_ len_ : Z) (buf : list Z) (s : sys) :
  SensorRead addr_ reg_ len_ buf s
  = ((fst (answer s), store buf len_ (snd (answer s))),
     mkSys (now s + 4030) (trace s ++ spi_read_events addr_ reg_ len_)
           (tl (rx s)) (wx s) (queuedRead s) (state s) (magGain s)).
Proof.
  unfold SensorRead.
  repeat (erewrite run_known by apply spiWriteRegisterDelay_eq; fields).
  mrun. erewrite run_known by apply next_rx_eq. mrun.
  unfold answer, spi_read_events, spi_start_events.
  rewrite <- !app_assoc. cbn [app].
  replace (now s + 10 + 10 + 10 + 1000 * 4) with (now s + 4030) by lia.
  reflexivity.
Qed.

Lemma SensorRead_eq (addr_ reg_ len_ : Z) (buf : list Z) (s : sys) :
  SensorRead addr_ reg_ len_ buf s
  = ((fst (answer s), store buf len_ (snd (answer s))),
     mkSys (now s + 4030) (trace s ++ spi_read_events addr_ reg_ len_)
           (tl (rx s)) (wx s) (queuedRead s) (state s) (magGain s)).
Proof.
  unfold SensorRead.
  repeat (erewrite run_known by apply spiWriteRegisterDelay_eq; fields).
  mrun. erewrite run_known by apply next_rx_eq. mrun.
  unfold answer, spi_read_events, spi_start_events.
  rewrite <- !app_assoc. cbn [app].
  replace (now s + 10 + 10 + 10 + 1000 * 4) with (now s + 4030) by lia.
  reflexivity.
Qed.

(** X18.  In the SPI build [ak8963Init] blocks for 12250 microseconds,
    takes exactly three answers from the bus, leaves the tracker and the
    state machine as they were, and the last thing it sends is the
    measure-once command. *)
Theorem init_frame (calibration status : list Z) (s : sys) :
  let s' := snd (@ak8963Init bus calibration status s) in
  now s' = now s + 12250 /\
  rx s' = tl (tl (tl (rx s))) /\
  queuedRead s' = queuedRead s /\
  state s' = state s /\
  exists pre, trace s' = trace s ++ pre ++ rearm_events.
Proof.
  cbv zeta. unfold ak8963Init.
  change (@ak8963SensorWrite bus) with SensorWrite.
  change (@ak8963SensorRead bus) with SensorRead.
  erewrite run_known by apply SensorWrite_eq. fields.
  erewrite run_known by apply SensorWrite_eq. fields.
  erewrite run_known by apply SensorRead_eq. fields.
  rewrite run_modify. fields.
  erewrite run_known by apply SensorWrite_eq. fields.
  erewrite run_known by apply SensorRead_eq. fields.
  erewrite run_known by apply SensorRead_eq. fields.
  erewrite run_known by apply SensorWrite_eq. fields.
  rewrite end_ret. unfold answer. fields. cbn [snd now rx queuedRead state trace].
  split; [lia |]. split; [reflexivity |]. split; [reflexivity |].
  split; [reflexivity |].
  exists (spi_write_events AK8963_MAG_I2C_ADDRESS AK8963_MAG_REG_CNTL1
                           CNTL1_MODE_POWER_DOWN
          ++ spi_write_events AK8963_MAG_I2C_ADDRESS AK8963_MAG_REG_CNTL1
                              CNTL1_MODE_FUSE_ROM
          ++ spi_read_events AK8963_MAG_I2C_ADDRESS AK8963_MAG_REG_ASAX 3
          ++ spi_write_events AK8963_MAG_I2C_ADDRESS AK8963_MAG_REG_CNTL1
                              CNTL1_MODE_POWER_DOWN
          ++ spi_read_events AK8963_MAG_I2C_ADDRESS AK8963_MAG_REG_STATUS1 1
          ++ spi_read_events AK8963_MAG_I2C_ADDRESS AK8963_MAG_REG_STATUS2
                             1).
  rewrite <- !app_assoc. reflexivity.
Qed.

(** *** The calibration bytes *)

Lemma store_nothing (buf : list Z) (n : Z) : store buf n [] = buf.
Proof.
  unfold store. cbn [map]. rewrite firstn_nil. cbn [length skipn app].
  apply firstn_all.
Qed.

Lemma byte_at_store_3 (c0 c1 c2 d0 d1 d2 : Z) (rest : list Z) (i : nat) :
  (i < 3)%nat ->
  byte_at (store [c0; c1; c2] 3 (d0 :: d1 :: d2 :: rest)) i
  = byte_at (d0 :: d1 :: d2 :: rest) i.
Proof.
  intros Hi. unfold store, byte_at. change (Z.to_nat 3) with 3%nat.
  cbn [map firstn length skipn app].
  destruct i as [| [| [| i]]]; [| | | lia]; cbn [nth]; apply uint8_t_idem.
Qed.

(** X17.  The gains depend on the bytes that arrive in the calibration
    buffer, not on whether the read was acknowledged: when the bus
    delivers three bytes they alone decide the gains, and when it
    delivers nothing the gains are computed from what the uninitialised
    local buffer held.  This is so in both builds. *)
Theorem init_gains_from_buffer :
  (forall (c0 c1 c2 : Z) (status : list Z) (s : sys) (data : list Z),
      snd (answer s) = data -> (3 <= length data)%nat ->
      let g := mkVec3 (gain_of (byte_at data 0)) (gain_of (byte_at data 1))
                      (gain_of (byte_at data 2)) in
      magGain (snd (@ak8963Init Spi.bus [c0; c1; c2] status s)) = g /\
      magGain (snd (@ak8963Init I2c.bus [c0; c1; c2] status s)) = g) /\
  (forall (calibration status : list Z) (s : sys),
      snd (answer s) = [] ->
      let g := mkVec3 (gain_of (byte_at calibration 0))
                      (gain_of (byte_at calibration 1))
                      (gain_of (byte_at calibration 2)) in
      magGain (snd (@ak8963Init Spi.bus calibration status s)) = g /\
      magGain (snd (@ak8963Init I2c.bus calibration status s)) = g).
Proof.
  assert (G : forall calibration status s,
             let c := store calibration 3 (snd (answer s)) in
             magGain (snd (@ak8963Init Spi.bus calibration status s))
             = mkVec3 (gain_of (byte_at c 0)) (gain_of (byte_at c 1))
                      (gain_of (byte_at c 2)) /\
             magGain (snd (@ak8963Init I2c.bus calibration status s))
             = mkVec3 (gain_of (byte_at c 0)) (gain_of (byte_at c 1))
                      (gain_of (byte_at c 2))).
  { intros calibration status s c. split.
    - apply (Init_gains Spi.bus).
      + intros a r d. apply spi_write_keeps; reflexivity.
      + intros a r d. apply spi_write_keeps; reflexivity.
      + apply spi_read_keeps_gain.
      + apply spi_read_result.
    - apply (Init_gains I2c.bus).
      + apply i2c_write_keeps_rx.
      + apply i2c_write_keeps_gain.
      + apply i2c_read_keeps_gain.
      + apply i2c_read_result. }
  split.
  - intros c0 c1 c2 status s data Hd Hl g.
    destruct data as [| d0 [| d1 [| d2 rest]]]; try (cbn in Hl; lia).
    specialize (G [c0; c1; c2] status s). cbv zeta in G. rewrite Hd in G.
    rewrite !byte_at_store_3 in G by lia. exact G.
  - intros calibration status s Hd g.
    specialize (G calibration status s). cbv zeta in G.
    rewrite Hd, store_nothing in G. exact G.
Qed.

Lemma init_gains_from_buffer_witness :
  magGain (snd (@ak8963Init Spi.bus [7; 8; 9] [0]
                            (boot 0 [(false, [176; 177; 255])] [])))
  = mkVec3 (gain_of 176) (gain_of 177) (gain_of 255) /\
  magGain (snd (@ak8963Init Spi.bus [7; 8; 9] [0] (boot 0 [] [])))
  = mkVec3 (gain_of 7) (gain_of 8) (gain_of 9).
Proof.
  split.
  - apply (proj1 init_gains_from_buffer 7 8 9 [0]
                 (boot 0 [(false, [176; 177; 255])] []) [176; 177; 255]).
    + reflexivity.
    + apply le_n.
  - apply (proj2 init_gains_from_buffer [7; 8; 9] [0] (boot 0 [] [])).
    reflexivity.
Defined.

(** X19.  Every gain [ak8963Init] can compute lies in [0, 30); it is 0
    exactly for the calibration byte 0x80. *)
Theorem gain_range (c : Z) :
  is_byte c ->
  (0 <= F32.value (gain_of c))%Q /\
  (F32.value (gain_of c) < 30)%Q /\
  (Qeq (F32.value (gain_of c)) 0 <-> c = 128).
Proof.
  intros Hc.
  assert (H : Qle_bool 0 (F32.value (gain_of c))
              && negb (Qle_bool 30 (F32.value (gain_of c)))
              && Bool.eqb (Qeq_bool (F32.value (gain_of c)) 0) (c =? 128)
              = true).
  { revert c Hc. apply byte_enum. vm_compute. reflexivity. }
  apply andb_true_iff in H. destruct H as [H H3].
  apply andb_true_iff in H. destruct H as [H1 H2].
  split; [apply Qle_bool_iff; exact H1 | split].
  - apply Qnot_le_lt. intros L. apply Qle_bool_iff in L.
    rewrite L in H2. discriminate H2.
  - apply Bool.eqb_prop in H3. rewrite <- Qeq_bool_iff, H3.
    apply Z.eqb_eq.
Qed.

Lemma gain_range_witness : (F32.value (gain_of 255) < 30)%Q.
Proof. apply (gain_range 255). unfold is_byte. lia. Defined.

(** X20.  With a gain computed by [ak8963Init], a raw value of magnitude
    at most 1096 never overflows: the stored value is the exact product
    with its fraction discarded, and it fits 16 bits with room to
    spare. *)
Theorem small_sample_exact (lo hi c : Z) :
  is_byte lo -> is_byte hi -> is_byte c ->
  - 1096 <= le_int16 lo hi <= 1096 ->
  let p := - le_int16 lo hi * (30 * (int8_t c + 128)) in
  axis_value lo hi (gain_of c) = Z.quot p 256 /\
  - 32751 <= axis_value lo hi (gain_of c) <= 32751.
Proof.
  intros Hlo Hhi Hc Hr p.
  pose proof (F32Facts.int8_t_range c Hc) as Ht.
  assert (Hp : - 8384400 <= p <= 8384400) by (unfold p; nia).
  assert (Hq : - 32751 <= Z.quot p 256 <= 32751).
  { pose proof (Z.quot_rem' p 256) as Q.
    pose proof (Z.rem_bound_abs p 256 ltac:(lia)) as B.
    change (Z.abs 256) with 256 in B.
    destruct (Z_le_dec 0 p) as [P | N].
    - pose proof (Z.rem_nonneg p 256 ltac:(lia) P). lia.
    - pose proof (Z.rem_nonpos p 256 ltac:(lia) ltac:(lia)). lia. }
  assert (E : axis_value lo hi (gain_of c) = Z.quot p 256).
  { unfold axis_value. rewrite (pair_le_int16 lo hi Hlo Hhi).
    apply F32Facts.product_exact; [lia | exact Hc | fold p; lia]. }
  split; [exact E | rewrite E; exact Hq].
Qed.

Lemma small_sample_exact_witness :
  axis_value 0x10 0x00 (gain_of 176) = Z.quot (- 16 * (30 * 48)) 256.
Proof.
  apply (small_sample_exact 0x10 0x00 176); unfold is_byte; try lia.
  vm_compute. split; discriminate.
Defined.


(** *** Detection *)

Lemma sig_byte (data : list Z) :
  byte_at (store [0] 1 data) 0 = byte_at data 0.
Proof.
  destruct data as [| x data].
  - rewrite store_nothing. reflexivity.
  - rewrite store_first by (try lia; discriminate). reflexivity.
Qed.

Lemma next_wx_eq (s : sys) :
  next_wx s = (hd false (wx s), set_wx (tl (wx s)) s).
Proof.
  unfold next_wx. destruct s as [t l r w q st g]; cbn.
  destruct w; reflexivity.
Qed.

Lemma i2cWrite_eq (a r d : Z) (s : sys) :
  i2cWrite a r d s
  = (hd false (wx s),
     mkSys (now s) (trace s ++ [EvI2cWrite a r d]) (rx s) (tl (wx s))
           (queuedRead s) (state s) (magGain s)).
Proof.
  unfold i2cWrite. mrun. rewrite next_wx_eq. reflexivity.
Qed.

Lemma i2cRead_eq (a r n : Z) (buf : list Z) (s : sys) :
  i2cRead a r n buf s
  = ((fst (answer s), store buf n (snd (answer s))),
     mkSys (now s) (trace s ++ [EvI2cRead a r n]) (tl (rx s)) (wx s)
           (queuedRead s) (state s) (magGain s)).
Proof.
  unfold i2cRead. mrun. erewrite run_known by apply next_rx_eq. mrun.
  reflexivity.
Qed.

(** X21.  [ak8963Detect] reports the compass, and sets the [init] and
    [read] pointers of the device, exactly when the WHO_AM_I read is
    acknowledged and delivers 0x48; otherwise it returns false and leaves
    the two pointers as they were.  A read that delivers nothing leaves
    the signature at its initial 0.  In the SPI build, found or not, the
    bus handle of the device has been given to [spiBusSetInstance] and
    the static [bus] pointer of the driver points to it; in the I2C build
    the bus handle is not touched. *)
Theorem detect_result {B I : Type} (set : B -> I -> B) (instance : I)
        (mag : Detect.magDev_t B) (s : sys) :
  let found :=
    fst (answer s) && (byte_at (snd (answer s)) 0 =? AK8963_Device_ID) in
  let pointers (b : B) :=
    if found
    then Detect.mkMagDev b (Some Detect.Fn_ak8963Init)
                         (Some Detect.Fn_ak8963Read)
    else Detect.mkMagDev b (Detect.init mag) (Detect.read mag) in
  (forall (r1 r2 r3 : mpu_reg) (v : Z),
      fst (Detect.SpiBuild.ak8963Detect set instance r1 r2 r3 v mag s)
      = (found, pointers (set (Detect.bus mag) instance), Detect.MagBus)) /\
  fst (Detect.I2cBuild.ak8963Detect mag s)
  = (found, pointers (Detect.bus mag)).
Proof.
  cbv zeta. split.
  - intros r1 r2 r3 v.
    unfold Detect.SpiBuild.ak8963Detect. cbv zeta.
    erewrite run_known by apply spiWriteRegisterDelay_eq. fields.
    erewrite run_known by apply spiWriteRegisterDelay_eq. fields.
    erewrite run_known by apply spiWriteRegisterDelay_eq. fields.
    erewrite run_known by apply SensorWrite_eq. fields.
    unfold delay. rewrite run_modify. fields.
    erewrite run_known by apply SensorRead_eq.
    unfold answer. fields. rewrite sig_byte.
    destruct (fst (hd (false, []) (rx s))
              && (byte_at (snd (hd (false, []) (rx s))) 0
                  =? AK8963_Device_ID)); reflexivity.
  - unfold Detect.I2cBuild.ak8963Detect.
    unfold I2c.SensorWrite, I2c.SensorRead.
    cbv zeta.
    erewrite run_known by apply i2cWrite_eq. fields.
    unfold delay. rewrite run_modify. fields.
    erewrite run_known by apply i2cRead_eq.
    unfold answer. fields. rewrite sig_byte.
    destruct mag as [b i r].
    destruct (fst (hd (false, []) (rx s))
              && (byte_at (snd (hd (false, []) (rx s))) 0
                  =? AK8963_Device_ID)); reflexivity.
Qed.

(** *** The direct I2C build *)

Lemma tail_fault_any (b : SensorBus) (reset : M unit) (ack : bool)
      (buf : list Z) (data : vec3 Z) (s : sys) :
  ack = false \/ ~ status2_clean (byte_at buf 6) ->
  @ak8963Read_tail b reset ack buf data s = ((false, data), s).
Proof.
  intros H. unfold ak8963Read_tail, status2_clean in *.
  destruct ack; cbn [negb orb]; [| reflexivity].
  destruct (test (byte_at buf 6) STATUS2_DATA_ERROR); [reflexivity |].
  destruct (test (byte_at buf 6) STATUS2_MAG_SENSOR_OVERFLOW);
    [reflexivity |].
  exfalso. destruct H as [H | H]; [discriminate H |].
  apply H. split; reflexivity.
Qed.

(** X15.  In the I2C build a call that finds the status read not
    acknowledged or DATA_READY clear makes that one read and nothing
    else; a call that finds the data read not acknowledged or a fault in
    status2 makes the two reads and nothing else.  In both cases it
    returns false, leaves [magData] as it was and sends no re-arm
    write. *)
Theorem i2c_read_failure :
  (forall (data : vec3 Z) (buf : list Z) (s : sys),
      fst (answer s) = false \/
      Z.land (byte_at (store buf 1 (snd (answer s))) 0) STATUS1_DATA_READY
      = 0 ->
      I2c.ak8963Read data buf s
      = ((false, data),
         mkSys (now s)
               (trace s ++ [EvI2cRead AK8963_MAG_I2C_ADDRESS
                                      AK8963_MAG_REG_STATUS1 1])
               (tl (rx s)) (wx s) (queuedRead s) (state s) (magGain s))) /\
  (forall (data : vec3 Z) (buf : list Z) (s : sys) (d1 d2 : list Z)
          (a2 : bool) (rest : list (bool * list Z)),
      rx s = (true, d1) :: (a2, d2) :: rest ->
      Z.land (byte_at (store buf 1 d1) 0) STATUS1_DATA_READY <> 0 ->
      a2 = false \/
      ~ status2_clean (byte_at (store (store buf 1 d1) 7 d2) 6) ->
      I2c.ak8963Read data buf s
      = ((false, data),
         mkSys (now s)
               (trace s ++ [EvI2cRead AK8963_MAG_I2C_ADDRESS
                                      AK8963_MAG_REG_STATUS1 1;
                            EvI2cRead AK8963_MAG_I2C_ADDRESS
                                      AK8963_MAG_REG_HXL 7])
               rest (wx s) (queuedRead s) (state s) (magGain s))).
Proof.
  split.
  - intros data buf s H. unfold I2c.ak8963Read.
    change (@ak8963SensorRead I2c.bus) with I2c.SensorRead.
    unfold I2c.SensorRead.
    erewrite run_known by apply i2cRead_eq. cbv zeta. cbn [fst snd].
    destruct H as [H | H].
    + rewrite H. reflexivity.
    + rewrite H. cbn [Z.eqb]. rewrite orb_true_r. reflexivity.
  - intros data buf s d1 d2 a2 rest Hrx Hs H. unfold I2c.ak8963Read.
    change (@ak8963SensorRead I2c.bus) with I2c.SensorRead.
    unfold I2c.SensorRead.
    erewrite run_known by apply i2cRead_eq. cbv zeta.
    unfold answer. rewrite Hrx. cbn [hd tl fst snd negb orb].
    destruct (Z.eqb_spec (Z.land (byte_at (store buf 1 d1) 0)
                                 STATUS1_DATA_READY) 0) as [E | _];
      [congruence |].
    erewrite run_known by apply i2cRead_eq.
    unfold answer. fields. cbn [hd tl fst snd].
    rewrite tail_fault_any
      by (destruct H as [-> | H]; [left; reflexivity | right; exact H]).
    rewrite <- app_assoc. reflexivity.
Qed.

Lemma i2c_read_failure_witness :
  fst (I2c.ak8963Read zero3 buf7 (boot 0 [(true, [0x00])] [true]))
  = (false, zero3) /\
  wx (snd (I2c.ak8963Read zero3 buf7 (boot 0 [(true, [0x00])] [true])))
  = [true].
Proof.
  rewrite (proj1 i2c_read_failure zero3 buf7
                 (boot 0 [(true, [0x00])] [true])).
  - split; reflexivity.
  - right. reflexivity.
Defined.

(** X14.  In the I2C build a clean sample is stored whatever happens to
    the re-arm write, and the value returned is the acknowledgement of
    that write: when the write is not acknowledged the call returns
    false although [magData] holds the new sample. *)
Theorem i2c_returns_write_ack (data : vec3 Z) (buf : list Z) (s : sys)
        (status : Z) (bytes : list Z) (rest : list (bool * list Z)) :
  length buf = 7%nat ->
  rx s = (true, [status]) :: (true, bytes) :: rest ->
  length bytes = 7%nat ->
  Z.land (uint8_t status) STATUS1_DATA_READY <> 0 ->
  status2_clean (byte_at bytes 6) ->
  fst (I2c.ak8963Read data buf s)
  = (hd false (wx s), sample bytes (magGain s)).
Proof. exact (i2c_read_values data buf s status bytes rest). Qed.

Lemma i2c_returns_write_ack_witness :
  fst (I2c.ak8963Read zero3 buf7 s_i2c)
  = (false, mkVec3 (-480) (-960) (-1440)).
Proof.
  rewrite (i2c_returns_write_ack zero3 buf7 s_i2c 0x01
                                 [0x10; 0; 0x20; 0; 0x30; 0; 0x00] []);
    try reflexivity.
  - discriminate.
  - split; reflexivity.
Defined.

(** X16.  On the same status byte and the same seven data bytes the two
    builds store the same sample: the poll of the SPI build that
    completes the data read, and the single call of the I2C build. *)
Theorem builds_store_same_sample
        (data : vec3 Z) (buf1 buf2 buf : list Z) (s_spi s_i2c' : sys)
        (a1 a2 : bool) (status : Z) (bytes : list Z)
        (rest rest' : list (bool * list Z)) (t2 : Z) :
  state s_spi = WAITING_FOR_STATUS ->
  timeRemaining s_spi = 0 ->
  len (queuedRead s_spi) = 1 ->
  length buf1 = 7%nat -> length buf2 = 7%nat -> length buf = 7%nat ->
  rx s_spi = (a1, [status]) :: (a2, bytes) :: rest ->
  rx s_i2c' = (true, [status]) :: (true, bytes) :: rest' ->
  magGain s_i2c' = magGain s_spi ->
  length bytes = 7%nat ->
  Z.land (uint8_t status) STATUS1_DATA_READY <> 0 ->
  status2_clean (byte_at bytes 6) ->
  let s1 := set_now t2 (snd (ak8963Read 2 data buf1 s_spi)) in
  timeRemaining s1 = 0 ->
  exists r,
    fst (ak8963Read 2 data buf2 s1) = Some r /\
    magData r = snd (fst (I2c.ak8963Read data buf s_i2c')).
Proof.
  intros St Hr Hl L1 L2 L Hrx Hrx' Hg Lb Hs Hc s1 Hr1.
  rewrite (i2c_read_values data buf s_i2c' status bytes rest') by assumption.
  cbn [snd]. rewrite Hg.
  assert (B1 : byte_at (store buf1 (len (queuedRead s_spi))
                              (snd (answer s_spi))) 0 = uint8_t status).
  { unfold answer. rewrite Hrx, Hl. cbn [hd snd].
    apply store_first; [| lia]. destruct buf1; discriminate. }
  assert (E1 := Read_status_ok 1 data buf1 s_spi St Hr).
  rewrite B1 in E1. specialize (E1 Hs).
  unfold s1 in *. rewrite E1 in *. cbn [snd] in *.
  match type of Hr1 with timeRemaining ?x = 0 => set (s2 := x) in * end.
  assert (A2 : store buf2 (len (queuedRead s2)) (snd (answer s2))
               = map uint8_t bytes).
  { unfold s2, answer. cbn [set_now rx queuedRead len].
    rewrite Hrx. cbn [tl hd snd].
    change 7 with (Z.of_nat 7). rewrite <- Lb. apply store_all. lia. }
  assert (E2 := Read_data_clean 1 data buf2 s2 eq_refl Hr1).
  cbv zeta in E2. rewrite A2, byte_at_map in E2. specialize (E2 Hc).
  rewrite E2. cbn [fst]. eexists. split; [reflexivity |].
  cbn [magData]. rewrite sample_map. reflexivity.
Qed.

Lemma builds_store_same_sample_witness :
  exists r,
    fst (ak8963Read 2 zero3 buf7
                    (set_now 20000 (snd (ak8963Read 2 zero3 buf7 s_ready))))
    = Some r /\
    magData r = snd (fst (I2c.ak8963Read zero3 buf7 s_i2c)).
Proof.
  apply (builds_store_same_sample
           zero3 buf7 buf7 buf7 s_ready s_i2c true false 0x01
           [0x10; 0; 0x20; 0; 0x30; 0; 0x00] [] [] 20000);
    try reflexivity.
  - discriminate.
  - split; reflexivity.
Defined.

End DriverMore.
